(** * filebeat-wrapper.py: a Mesos container logger wrapping filebeat

    A shallow embedding of [filebeat-wrapper.py] (Python 3 semantics) and
    proofs of the properties its specification states.

    Modelling conventions.
    - Python values are the inductive [pyval]; text is a byte string
      ([string]), so [str.lower] touches ASCII letters only.
    - Exceptions are the error side of [res]; effects on the file system
      and on standard output are threaded through a [world] and persist
      when an exception is raised afterwards.
    - [json.loads] and the [repr] of floats, lists and dicts belong to the
      Python runtime, not to this program: they are the section variables
      [json_loads] and [py_repr], and every result holds for any choice. *)

From Stdlib Require Import ZArith String Ascii List Bool Lia.
From Stdlib Require Import Floats.PrimFloat.
From stdpp Require Import base option list gmap strings pretty.
Import ListNotations.

Local Open Scope string_scope.
Local Open Scope Z_scope.
Set Warnings "-register-all".

(** ** Python values and exceptions *)

(** What [json.loads] and [os.environ.get] can return.  A dict keeps its
    items in insertion order, which iteration observes. *)
Inductive pyval : Type :=
  | PNone
  | PBool (b : bool)
  | PInt (n : Z)
  | PFloat (f : float)
  | PStr (s : string)
  | PList (items : list pyval)
  | PDict (items : list (string * pyval)).

Inductive exn : Type :=
  | KeyError | IndexError | TypeError | ValueError | AttributeError | OSError.

Inductive res (A : Type) : Type :=
  | Ok (a : A)
  | Raise (e : exn).
Arguments Ok {A} a.
Arguments Raise {A} e.

Definition res_bind {A B} (m : res A) (k : A → res B) : res B :=
  match m with Ok a => k a | Raise e => Raise e end.

Declare Scope res_scope.
Delimit Scope res_scope with res.
Notation "x ←? m ; k" := (res_bind m (fun x => k))
  (at level 100, m at next level, right associativity) : res_scope.
Local Open Scope res_scope.

Definition exn_eqb (a b : exn) : bool :=
  match a, b with
  | KeyError, KeyError | IndexError, IndexError | TypeError, TypeError
  | ValueError, ValueError | AttributeError, AttributeError
  | OSError, OSError => true
  | _, _ => false
  end.

(** [bool(v)]: the truth value Python's [if] and [and] test. *)
Definition truthy (v : pyval) : bool :=
  match v with
  | PNone => false
  | PBool b => b
  | PInt n => negb (n =? 0)
  | PFloat f => negb (PrimFloat.eqb f 0%float)
  | PStr s => negb (String.eqb s "")
  | PList l => match l with [] => false | _ => true end
  | PDict d => match d with [] => false | _ => true end
  end.

(** [v == "text"] for a string literal on the right. *)
Definition eq_str (v : pyval) (t : string) : bool :=
  match v with PStr s => String.eqb s t | _ => false end.

(** [d[key]] on a dict: the item stored under [key]. *)
Fixpoint dict_get (d : list (string * pyval)) (key : string) : res pyval :=
  match d with
  | [] => Raise KeyError
  | (k, v) :: d' => if String.eqb k key then Ok v else dict_get d' key
  end.

(** [v[key]] with a string key: only a dict accepts it; a list, a str and
    the scalars raise TypeError. *)
Definition subscript (v : pyval) (key : string) : res pyval :=
  match v with
  | PDict d => dict_get d key
  | _ => Raise TypeError
  end.

(** [for x in v]: the items of a list, the keys of a dict, the characters
    of a str; the other values are not iterable. *)
Definition py_iter (v : pyval) : res (list pyval) :=
  match v with
  | PList l => Ok l
  | PDict d => Ok (map (fun kv => PStr (fst kv)) d)
  | PStr s => Ok (map (fun c => PStr (String c EmptyString)) (list_ascii_of_string s))
  | _ => Raise TypeError
  end.

(** [l[0]]. *)
Definition first_item {A} (l : list A) : res A :=
  match l with
  | [] => Raise IndexError
  | x :: _ => Ok x
  end.

(** [s.lower()] on a byte string. *)
Definition lower_ascii (c : ascii) : ascii :=
  let n := nat_of_ascii c in
  if ((65 <=? n) && (n <=? 90))%nat then ascii_of_nat (n + 32) else c.

Fixpoint lower (s : string) : string :=
  match s with
  | EmptyString => EmptyString
  | String c s' => String (lower_ascii c) (lower s')
  end.

(** [v.lower()]: an attribute of str only. *)
Definition py_lower (v : pyval) : res pyval :=
  match v with
  | PStr s => Ok (PStr (lower s))
  | _ => Raise AttributeError
  end.

(** ** The world the program runs in *)

(** [files] are the regular files and their content, one file per path (no
    links, one spelling per path); [unwritable] are the paths at which
    [open(path, "w")] and [open(path, "a")] raise (missing directory,
    permissions, full disk); [executables] are the programs that can be
    spawned; [stdout] is what was written to [sys.stdout], oldest first. *)
Record world : Type := World {
  files : gmap string string;
  unwritable : gset string;
  executables : gset string;
  stdout : list string
}.

Definition set_files (f : gmap string string) (w : world) : world :=
  World f (unwritable w) (executables w) (stdout w).

Definition set_stdout (o : list string) (w : world) : world :=
  World (files w) (unwritable w) (executables w) o.

(** A computation with effects: the world is returned also when an
    exception is raised, since what was written stays written. *)
Definition io (A : Type) : Type := world → world * res A.

Definition io_ret {A} (a : A) : io A := fun w => (w, Ok a).
Definition io_raise {A} (e : exn) : io A := fun w => (w, Raise e).
Definition io_lift {A} (r : res A) : io A := fun w => (w, r).

Definition io_bind {A B} (m : io A) (k : A → io B) : io B :=
  fun w =>
    match m w with
    | (w', Ok a) => k a w'
    | (w', Raise e) => (w', Raise e)
    end.

Declare Scope io_scope.
Delimit Scope io_scope with io.
Notation "x ←! m ; k" := (io_bind m (fun x => k))
  (at level 100, m at next level, right associativity) : io_scope.
Notation "m ;! k" := (io_bind m (fun _ => k))
  (at level 100, right associativity) : io_scope.

(** [os.path.isfile(path)]. *)
Definition isfile (path : string) : io bool :=
  fun w => (w, Ok (bool_decide (is_Some (files w !! path)))).

(** [open(path, mode)] for the modes ["w"] (truncate or create) and ["a"]
    (keep or create), and [fp.write(text)] on the file so opened. *)
Inductive open_mode : Type := ModeW | ModeA.

Definition open_file (path : string) (mode : open_mode) : io unit :=
  fun w =>
    if bool_decide (path ∈ unwritable w) then (w, Raise OSError)
    else
      let old := default "" (files w !! path) in
      let start := match mode with ModeW => "" | ModeA => old end in
      (set_files (<[path := start]> (files w)) w, Ok tt).

Definition fp_write (path text : string) : io unit :=
  fun w =>
    (set_files (<[path := default "" (files w !! path) ++ text]> (files w)) w, Ok tt).

(** [sys.stdout.write(text)]. *)
Definition stdout_write (text : string) : io unit :=
  fun w => (set_stdout (stdout w ++ [text]) w, Ok tt).

(** The handle [subprocess.Popen] returns: the command line the child was
    started with; the child reads the standard input of this process. *)
Record process : Type := Process { argv : list string }.

Fixpoint str_args (args : list pyval) : res (list string) :=
  match args with
  | [] => Ok []
  | PStr s :: args' => l ←? str_args args'; Ok (s :: l)
  | _ :: _ => Raise TypeError
  end.

(** [subprocess.Popen(args, stdin=sys.stdin)]: every argument must be a
    str, and the program must be there to execute. *)
Definition Popen (args : list pyval) : io process :=
  fun w =>
    match str_args args with
    | Raise e => (w, Raise e)
    | Ok [] => (w, Raise IndexError)
    | Ok (prog :: rest) =>
        if bool_decide (prog ∈ executables w) then (w, Ok (Process (prog :: rest)))
        else (w, Raise OSError)
    end.

(** [os.environ]. *)
Definition environ_get (env : gmap string string) (name : string) : pyval :=
  match env !! name with
  | Some s => PStr s
  | None => PNone
  end.

(** ** The text constants of the program *)

(** The constants below are written with an apostrophe wherever the source
    has a double quote; [requote] puts the double quotes back. *)
Definition requote_ascii (c : ascii) : ascii :=
  if Ascii.eqb c "'" then ascii_of_nat 34 else c.

Fixpoint requote (s : string) : string :=
  match s with
  | EmptyString => EmptyString
  | String c s' => String (requote_ascii c) (requote s')
  end.

(** The filebeat configuration, a [str.format] template with five
    positional fields (source lines 14-31). *)
Definition template : string := requote "
filebeat:
  prospectors:
    -
      paths:
        - '-'
      input_type: stdin
      close_eof: true
      fields:
        image: {}
        framework_id: {}
        mesos_log_sandbox_directory: {}
        mesos_log_stream: {}

output:
  elasticsearch:
    hosts: ['{}']
".

(** The default index template, written verbatim (source lines 33-109). *)
Definition template_json : string := requote "
{
  'mappings': {
    '_default_': {
      '_all': {
        'norms': false
      },
      '_meta': {
        'version': '6.0.0-alpha1'
      },
      'dynamic_templates': [
        {
          'fields': {
            'mapping': {
              'ignore_above': 1024,
              'type': 'keyword'
            },
            'match_mapping_type': 'string',
            'path_match': 'fields.*'
          }
        }
      ],
      'properties': {
        '@timestamp': {
          'type': 'date'
        },
        'beat': {
          'properties': {
            'hostname': {
              'ignore_above': 1024,
              'type': 'keyword'
            },
            'name': {
              'ignore_above': 1024,
              'type': 'keyword'
            }
          }
        },
        'input_type': {
          'ignore_above': 1024,
          'type': 'keyword'
        },
        'message': {
          'norms': false,
          'type': 'text'
        },
        'offset': {
          'type': 'long'
        },
        'source': {
          'ignore_above': 1024,
          'type': 'keyword'
        },
        'tags': {
          'ignore_above': 1024,
          'type': 'keyword'
        },
        'type': {
          'ignore_above': 1024,
          'type': 'keyword'
        }
      }
    }
  },
  'order': 0,
  'settings': {
    'index.refresh_interval': '5s'
  },
  'template': 'filebeat-*'
}
".

(** The default index template for Elasticsearch 2.x (source lines 111-187). *)
Definition template_json_x2 : string := requote "
{
  'mappings': {
    '_default_': {
      '_all': {
        'norms': {
          'enabled': false
        }
      },
      '_meta': {
        'version': '6.0.0-alpha1'
      },
      'dynamic_templates': [
        {
          'fields': {
            'mapping': {
              'ignore_above': 1024,
              'index': 'not_analyzed',
              'type': 'string'
            },
            'match_mapping_type': 'string',
            'path_match': 'fields.*'
          }
        }
      ],
      'properties': {
        '@timestamp': {
          'type': 'date'
        },
        'beat': {
          'properties': {
            'hostname': {
              'ignore_above': 1024,
              'index': 'not_analyzed',
              'type': 'string'
            },
            'name': {
              'ignore_above': 1024,
              'index': 'not_analyzed',
              'type': 'string'
            }
          }
        },
        'input_type': {
          'ignore_above': 1024,
          'index': 'not_analyzed',
          'type': 'string'
        },
        'message': {
          'index': 'analyzed',
          'norms': {
            'enabled': false
          },
          'type': 'string'
        },
        'offset': {
          'type': 'long'
        },
        'source': {
          'ignore_above': 1024,
          'index': 'not_analyzed',
          'type': 'string'
        },
        'tags': {
          'ignore_above': 1024,
          'index': 'not_analyzed',
          'type': 'string'
        },
        'type': {
          'ignore_above': 1024,
          'index': 'not_analyzed',
          'type': 'string'
        }
      }
    }
  },
  'order': 0,
  'settings': {
    'index.refresh_interval': '5s'
  },
  'template': 'filebeat-*'
}
".

(** ** Processes: lines 264-271 and the operating system around them *)

Definition SIGKILL : Z := 9.
Definition SIGTERM : Z := 15.

(** How a process ended, as its parent learns from [waitpid]. *)
Inductive wait_status : Type :=
  | Exited (code : Z)
  | Signaled (sig : Z).

Inductive child_state : Type :=
  | Running
  | Ended (st : wait_status).

(** The value of [proc.wait()]: the exit code, or minus the number of the
    signal that ended the child. *)
Definition returncode (st : wait_status) : Z :=
  match st with
  | Exited code => code
  | Signaled sig => - sig
  end.

(** [sys.exit(n)]: the process exits and its parent sees the low eight bits
    of [n]. *)
Definition sys_exit (n : Z) : wait_status := Exited (n mod 256).

(** [proc.kill()]: SIGKILL to a child that still runs; nothing for one that
    has ended. *)
Definition Popen_kill (c : child_state) : child_state :=
  match c with
  | Running => Ended (Signaled SIGKILL)
  | Ended st => Ended st
  end.

(** The script after [main] returned a process: [armed] tells whether
    [signal.signal(signal.SIGTERM, handler)] has run, after which the script
    is blocked in [proc.wait()]. *)
Inductive run_state : Type :=
  | Finished (st : wait_status)
  | Supervising (armed : bool) (c : child_state).

(** Lines 268-269: [handler] kills the child and returns. *)
Definition handler (s : run_state) : run_state :=
  match s with
  | Supervising armed c => Supervising armed (Popen_kill c)
  | Finished st => Finished st
  end.

(** Line 271: [sys.exit(proc.wait())] goes through once the child has
    ended. *)
Definition wait_and_exit (s : run_state) : run_state :=
  match s with
  | Supervising true (Ended st) => Finished (sys_exit (returncode st))
  | _ => s
  end.

(** What can happen while the child runs. [Advance]: the script runs line
    270 and enters line 271. *)
Inductive event : Type :=
  | Advance
  | Sigterm
  | ChildExits (code : Z)
  | ChildSignaled (sig : Z).

Definition child_ends (st : wait_status) (c : child_state) : child_state :=
  match c with
  | Running => Ended st
  | Ended st' => Ended st'
  end.

(** Before line 270 SIGTERM has its default action and ends the script;
    after it the handler runs and the wait is resumed. *)
Definition step (s : run_state) (ev : event) : run_state :=
  match s with
  | Finished st => Finished st
  | Supervising armed c =>
      match ev with
      | Advance => wait_and_exit (Supervising true c)
      | Sigterm =>
          if armed then wait_and_exit (handler (Supervising armed c))
          else Finished (Signaled SIGTERM)
      | ChildExits code => wait_and_exit (Supervising armed (child_ends (Exited code) c))
      | ChildSignaled sig => wait_and_exit (Supervising armed (child_ends (Signaled sig) c))
      end
  end.

Definition run (s : run_state) (evs : list event) : run_state :=
  fold_left step evs s.

(** ** Sample data for the examples *)

Definition doc_ship : string :=
  requote "{'command': {'environment': {'variables': [{'name': 'FILEBEAT_OUTPUT_HOST', 'value': 'es:9200'}]}}, 'container': {'docker': {'image': 'nginx'}}}".

Definition val_ship : pyval :=
  PDict [("command", PDict [("environment", PDict [("variables",
           PList [PDict [("name", PStr "FILEBEAT_OUTPUT_HOST");
                         ("value", PStr "es:9200")]])])]);
         ("container", PDict [("docker", PDict [("image", PStr "nginx")])])].

Definition doc_no_command : string := requote "{'framework_id': {'value': 'f-1'}}".

Definition val_no_command : pyval :=
  PDict [("framework_id", PDict [("value", PStr "f-1")])].

Definition doc_bad_level : string := requote "{'command': 5}".

Definition val_bad_level : pyval := PDict [("command", PInt 5)].

(** [json.loads] on the documents of the examples; here every other text
    counts as undecodable. *)
Definition sample_loads (text : string) : option pyval :=
  if String.eqb text doc_ship then Some val_ship
  else if String.eqb text doc_no_command then Some val_no_command
  else if String.eqb text doc_bad_level then Some val_bad_level
  else if String.eqb text "[]" then Some (PList [])
  else if String.eqb text "5" then Some (PInt 5)
  else if String.eqb text "{}" then Some (PDict [])
  else None.

(** The examples format no float, list or dict. *)
Definition sample_repr (v : pyval) : string := "".

Definition world0 : world := World ∅ ∅ {["/usr/bin/filebeat"]} [].

(** The environments of scenarios A, B and C of section 8, the last one
    also without sandbox directory and stream label, and two environments
    whose descriptor is ill-typed. *)
Definition env_passthrough : gmap string string := ∅.

Definition env_sidecar : gmap string string :=
  <["MESOS_LOG_SANDBOX_DIRECTORY" := "/s"]> (<["MESOS_LOG_STREAM" := "STDERR"]> ∅).

Definition env_ship : gmap string string :=
  <["MESOS_EXECUTORINFO_JSON" := doc_ship]>
    (<["MESOS_LOG_SANDBOX_DIRECTORY" := "/s"]> (<["MESOS_LOG_STREAM" := "STDOUT"]> ∅)).

Definition env_ship_bare : gmap string string :=
  <["MESOS_EXECUTORINFO_JSON" := doc_ship]> ∅.

Definition env_no_command : gmap string string :=
  <["MESOS_EXECUTORINFO_JSON" := doc_no_command]> ∅.

Definition env_number : gmap string string :=
  <["MESOS_EXECUTORINFO_JSON" := "5"]> ∅.

Definition env_bad_level : gmap string string :=
  <["MESOS_EXECUTORINFO_JSON" := doc_bad_level]> ∅.

Definition two_lines : list string := ["first
"; "second
"].

(** A world in which an older configuration is in the way. *)
Definition world_stale : world :=
  set_files (<["/s/filebeat-STDOUT.yml" := "stale"]> ∅) world0.

(** Descriptors with one list of variables, for the examples. *)
Definition with_variables (vs : pyval) : pyval :=
  PDict [("command", PDict [("environment", PDict [("variables", vs)])])].

Definition host_entry (v : string) : pyval :=
  PDict [("name", PStr "FILEBEAT_OUTPUT_HOST"); ("value", PStr v)].

(** A world where the user put a template of their own. *)
Definition world_edited : world :=
  set_files (<["/s/filebeat.template.json" := "{}"]> ∅) world0.

(** Worlds in which [open] refuses one path, and one without filebeat. *)
Definition world_template_locked : world :=
  World ∅ {["/s/filebeat.template.json"]} {["/usr/bin/filebeat"]} [].

Definition world_sidecar_locked : world :=
  World ∅ {["/s/stderr"]} {["/usr/bin/filebeat"]} [].

Definition world_config_locked : world :=
  World ∅ {["/s/filebeat-STDOUT.yml"]} {["/usr/bin/filebeat"]} [].

Definition world_second_locked : world :=
  World ∅ {["/s/filebeat.template-es2x.json"]} {["/usr/bin/filebeat"]} [].

Definition world_no_agent : world := World ∅ ∅ ∅ [].

(** Environments: a number for a descriptor beside a sandbox directory, and
    a sandbox directory alone. *)
Definition env_number_sandbox : gmap string string :=
  <["MESOS_EXECUTORINFO_JSON" := "5"]> (<["MESOS_LOG_SANDBOX_DIRECTORY" := "/s"]> ∅).

Definition env_sandbox_only : gmap string string :=
  <["MESOS_LOG_SANDBOX_DIRECTORY" := "/s"]> ∅.

(** A list of variables whose second entry is named like the host but has
    no value. *)
Definition val_valueless_later : pyval :=
  with_variables
    (PList [host_entry "a"; PDict [("name", PStr "FILEBEAT_OUTPUT_HOST")]]).

(** A list of variables whose first entry has no name. *)
Definition val_nameless_first : pyval :=
  with_variables (PList [PDict [("value", PInt 1)]; host_entry "h"]).

(** ** The program *)

Section Wrapper.

(** [json.loads] on a str: [None] when the text is not a JSON document. *)
Variable json_loads : string → option pyval.

(** [repr] of a float, a list or a dict. *)
Variable py_repr : pyval → string.

Local Open Scope io_scope.

(** [str(v)], which is what a [{}] field of [str.format] inserts. *)
Definition py_str (v : pyval) : string :=
  match v with
  | PNone => "None"
  | PBool true => "True"
  | PBool false => "False"
  | PInt n => pretty n
  | PStr s => s
  | PFloat _ | PList _ | PDict _ => py_repr v
  end.

(** [fmt.format( *args )] for the format strings of this program: [{}]
    takes the next argument, a doubled brace stands for one brace and any
    other use of a brace is rejected. *)
Fixpoint py_format (fmt : string) (args : list pyval) : res string :=
  match fmt with
  | EmptyString => Ok EmptyString
  | String c rest =>
      if Ascii.eqb c "{" then
        match rest with
        | String c' rest' =>
            if Ascii.eqb c' "}" then
              match args with
              | [] => Raise IndexError
              | a :: args' => r ←? py_format rest' args'; Ok (py_str a ++ r)
              end
            else if Ascii.eqb c' "{" then
              r ←? py_format rest' args; Ok (String "{" r)
            else Raise ValueError
        | EmptyString => Raise ValueError
        end
      else if Ascii.eqb c "}" then
        match rest with
        | String c' rest' =>
            if Ascii.eqb c' "}" then r ←? py_format rest' args; Ok (String "}" r)
            else Raise ValueError
        | EmptyString => Raise ValueError
        end
      else r ←? py_format rest args; Ok (String c r)
  end.

(** [json.loads(v)]: TypeError unless [v] is text, ValueError when the text
    does not decode. *)
Definition py_json_loads (v : pyval) : res pyval :=
  match v with
  | PStr s => match json_loads s with Some d => Ok d | None => Raise ValueError end
  | _ => Raise TypeError
  end.

(** [try: m except handled: h]. *)
Definition catch {A} (m : res A) (handled : list exn) (h : res A) : res A :=
  match m with
  | Ok a => Ok a
  | Raise e => if existsb (exn_eqb e) handled then h else Raise e
  end.

(** Lines 191-196: the executor descriptor, [{}] when the variable is unset
    or does not decode. *)
Definition load_executor_info (env : gmap string string) : res pyval :=
  catch (py_json_loads (environ_get env "MESOS_EXECUTORINFO_JSON"))
        [ValueError; TypeError] (Ok (PDict [])).

(** Lines 206-209 and 210-213: one index template, written when no file is
    there and the sandbox directory is set. *)
Definition provision (path_format document : string) (sandbox : pyval) : io unit :=
  path ←! io_lift (py_format path_format [sandbox]);
  present ←! isfile path;
  if negb present && truthy sandbox
  then open_file path ModeW ;! fp_write path document
  else io_ret tt.

Definition template_provisioner (sandbox : pyval) : io unit :=
  provision "{}/filebeat.template.json" template_json sandbox ;!
  provision "{}/filebeat.template-es2x.json" template_json_x2 sandbox.

(** Lines 220-223: the comprehension
    [x["value"] for x in xs if x["name"] == "FILEBEAT_OUTPUT_HOST"]. *)
Fixpoint host_values (xs : list pyval) : res (list pyval) :=
  match xs with
  | [] => Ok []
  | x :: xs' =>
      n ←? subscript x "name";
      if eq_str n "FILEBEAT_OUTPUT_HOST"
      then (v ←? subscript x "value"; vs ←? host_values xs'; Ok (v :: vs))
      else host_values xs'
  end.

Definition find_output_host (info : pyval) : res pyval :=
  c ←? subscript info "command";
  e ←? subscript c "environment";
  vs ←? subscript e "variables";
  xs ←? py_iter vs;
  hs ←? host_values xs;
  first_item hs.

(** Lines 230-232: every line appended to the file named after the
    lower-cased stream, which is opened anew for each line. *)
Fixpoint sidecar_copy (sandbox stream : pyval) (lines : list string) : io unit :=
  match lines with
  | [] => io_ret tt
  | line :: rest =>
      l ←! io_lift (py_lower stream);
      path ←! io_lift (py_format "{}/{}" [sandbox; l]);
      open_file path ModeA ;!
      fp_write path line ;!
      sidecar_copy sandbox stream rest
  end.

(** Lines 235-236. *)
Fixpoint stdout_copy (lines : list string) : io unit :=
  match lines with
  | [] => io_ret tt
  | line :: rest => stdout_write line ;! stdout_copy rest
  end.

(** Lines 229-237: the body of [except (KeyError, IndexError)]. *)
Definition fallback (sandbox stream : pyval) (stdin : list string) : io (option process) :=
  (if truthy sandbox && truthy stream
   then sidecar_copy sandbox stream stdin
   else stdout_copy stdin) ;!
  io_ret None.

(** Lines 240-249. *)
Definition docker_image (info : pyval) : res pyval :=
  catch (c ←? subscript info "container";
         d ←? subscript c "docker";
         subscript d "image")
        [KeyError] (Ok (PStr "")).

Definition framework_id (info : pyval) : res pyval :=
  catch (f ←? subscript info "framework_id"; subscript f "value")
        [KeyError] (Ok (PStr "")).

(** Lines 250-260: the configuration rendered and written; the path is
    returned. *)
Definition config_renderer (sandbox stream IMAGE FRAMEWORK_ID host : pyval) : io string :=
  path ←! io_lift (py_format "{}/filebeat-{}.yml" [sandbox; stream]);
  open_file path ModeW ;!
  text ←! io_lift (py_format template [IMAGE; FRAMEWORK_ID; sandbox; stream; host]);
  fp_write path text ;!
  io_ret path.

(** Lines 240-262: what [main] does once the host is known. *)
Definition ship (info sandbox stream host : pyval) : io (option process) :=
  IMAGE ←! io_lift (docker_image info);
  FRAMEWORK_ID ←! io_lift (framework_id info);
  path ←! config_renderer sandbox stream IMAGE FRAMEWORK_ID host;
  proc ←! Popen [PStr "/usr/bin/filebeat"; PStr "-path.config"; sandbox;
                 PStr "-c"; PStr path];
  io_ret (Some proc).

(** [main()]: [None] when nothing is shipped, else the filebeat process. *)
Definition main (env : gmap string string) (stdin : list string) : io (option process) :=
  MESOS_EXECUTOR_INFO ←! io_lift (load_executor_info env);
  let MESOS_LOG_SANDBOX_DIRECTORY := environ_get env "MESOS_LOG_SANDBOX_DIRECTORY" in
  let MESOS_LOG_STREAM := environ_get env "MESOS_LOG_STREAM" in
  template_provisioner MESOS_LOG_SANDBOX_DIRECTORY ;!
  match find_output_host MESOS_EXECUTOR_INFO with
  | Ok FILEBEAT_OUTPUT_HOST =>
      ship MESOS_EXECUTOR_INFO MESOS_LOG_SANDBOX_DIRECTORY MESOS_LOG_STREAM
           FILEBEAT_OUTPUT_HOST
  | Raise e =>
      if existsb (exn_eqb e) [KeyError; IndexError]
      then fallback MESOS_LOG_SANDBOX_DIRECTORY MESOS_LOG_STREAM stdin
      else io_raise e
  end.

(** Lines 264-267: the script runs [main]; without a process it exits with
    status 0, and an exception nobody caught ends it with status 1. *)
Definition script (env : gmap string string) (stdin : list string) (w : world)
  : world * run_state :=
  match main env stdin w with
  | (w', Ok None) => (w', Finished (sys_exit 0))
  | (w', Ok (Some proc)) => (w', Supervising false Running)
  | (w', Raise e) => (w', Finished (Exited 1))
  end.

(** ** The output resolver *)

(** The three ways out of lines 218-237. *)
Inductive OutputTarget : Type :=
  | Ship (host : pyval)
  | SidecarFile (path : string)
  | Passthrough.

(** The branch [main] takes in the [except] body, with the file it names. *)
Definition fallback_target (sandbox stream : pyval) : res OutputTarget :=
  if truthy sandbox && truthy stream
  then (l ←? py_lower stream;
        path ←? py_format "{}/{}" [sandbox; l];
        Ok (SidecarFile path))
  else Ok Passthrough.

(** The decision of lines 218-229 as a value. *)
Definition output_resolver (info sandbox stream : pyval) : res OutputTarget :=
  match find_output_host info with
  | Ok host => Ok (Ship host)
  | Raise e =>
      if existsb (exn_eqb e) [KeyError; IndexError]
      then fallback_target sandbox stream
      else Raise e
  end.

(** Every line appended to one file, which is opened anew for each. *)
Fixpoint append_lines (path : string) (lines : list string) : io unit :=
  match lines with
  | [] => io_ret tt
  | line :: rest =>
      open_file path ModeA ;! fp_write path line ;! append_lines path rest
  end.

(** What [main] does for each target. *)
Definition dispatch (info sandbox stream : pyval) (stdin : list string)
    (t : OutputTarget) : io (option process) :=
  match t with
  | Ship host => ship info sandbox stream host
  | SidecarFile path => append_lines path stdin ;! io_ret None
  | Passthrough => stdout_copy stdin ;! io_ret None
  end.

(** ** The specification's reading of the descriptor *)

(** A value of [os.environ.get]. *)
Definition of_env (v : option string) : pyval :=
  match v with
  | Some s => PStr s
  | None => PNone
  end.

(** A sandbox directory or stream label is known when it is set and not
    empty. *)
Definition known (v : option string) : bool :=
  match v with
  | Some s => negb (String.eqb s "")
  | None => false
  end.

(** An optional field of a JSON object: absent when the value is no object
    or has no such key. *)
Definition field (key : string) (v : pyval) : option pyval :=
  match v with
  | PDict d =>
      match dict_get d key with
      | Ok x => Some x
      | Raise _ => None
      end
  | _ => None
  end.

Definition is_host_entry (x : pyval) : bool :=
  match field "name" x with
  | Some n => eq_str n "FILEBEAT_OUTPUT_HOST"
  | None => false
  end.

(** Section 4.3, step 1: the first entry of [command.environment.variables]
    named FILEBEAT_OUTPUT_HOST; any missing level means not found. *)
Definition declared_host (info : pyval) : option pyval :=
  c ← field "command" info;
  e ← field "environment" c;
  vs ← field "variables" e;
  match vs with
  | PList xs => x ← find is_host_entry xs; field "value" x
  | _ => None
  end.

(** Section 4.3, steps 3 and 4. *)
Definition spec_fallback (sandbox stream : option string) : OutputTarget :=
  match sandbox, stream with
  | Some d, Some l =>
      if known sandbox && known stream
      then SidecarFile (d ++ "/" ++ lower l)
      else Passthrough
  | _, _ => Passthrough
  end.

(** Section 4.3, steps 2 to 4. *)
Definition spec_target (info : pyval) (sandbox stream : option string) : OutputTarget :=
  match declared_host info with
  | Some host => Ship host
  | None => spec_fallback sandbox stream
  end.

(** The schema of section 6, every level optional:
    [{command: {environment: {variables: [entry, ...]}}}]. *)
Definition optional_level (key : string) (shape : pyval → bool) (v : pyval) : bool :=
  match v with
  | PDict d =>
      match dict_get d key with
      | Ok x => shape x
      | Raise _ => true
      end
  | _ => false
  end.

Definition is_dict (v : pyval) : bool :=
  match v with
  | PDict _ => true
  | _ => false
  end.

Definition has_key (key : string) (v : pyval) : bool :=
  match field key v with
  | Some _ => true
  | None => false
  end.

Definition list_of (entry : pyval → bool) (v : pyval) : bool :=
  match v with
  | PList xs => forallb entry xs
  | _ => false
  end.

Definition levels_typed (entry : pyval → bool) (info : pyval) : bool :=
  optional_level "command"
    (optional_level "environment"
       (optional_level "variables" (list_of entry))) info.

(** An entry of the variables list as the program needs it: an object with
    a name, and with a value when the name is FILEBEAT_OUTPUT_HOST. *)
Definition entry_shaped (x : pyval) : bool :=
  has_key "name" x && (has_key "value" x || negb (is_host_entry x)).

(** A descriptor: typed levels whose entries are shaped. *)
Definition descriptor_shaped (info : pyval) : bool :=
  levels_typed entry_shaped info.

(** The text between the five fields of [template]. *)
Definition template_parts : list string :=
  [requote "
filebeat:
  prospectors:
    -
      paths:
        - '-'
      input_type: stdin
      close_eof: true
      fields:
        image: ";
   "
        framework_id: ";
   "
        mesos_log_sandbox_directory: ";
   "
        mesos_log_stream: ";
   requote "

output:
  elasticsearch:
    hosts: ['";
   requote "']
"].

(** The rendered configuration: the five values in their places. *)
Definition rendered (IMAGE FRAMEWORK_ID sandbox stream host : pyval) : string :=
  match template_parts with
  | [p0; p1; p2; p3; p4; p5] =>
      (p0 ++ py_str IMAGE ++ p1 ++ py_str FRAMEWORK_ID ++ p2 ++ py_str sandbox
          ++ p3 ++ py_str stream ++ p4 ++ py_str host ++ p5)%string
  | _ => ""
  end.

(** The two index templates: file name under the sandbox directory and
    embedded document. *)
Definition index_templates : list (string * string) :=
  [("/filebeat.template.json", template_json);
   ("/filebeat.template-es2x.json", template_json_x2)].

(** What lines 207-209 (and 211-213) do to the world, by cases. *)
Definition provision_effect (path document : string) (sandbox : pyval) (w : world)
  : world * res unit :=
  if bool_decide (is_Some (files w !! path)) then (w, Ok tt)
  else if truthy sandbox then
    if bool_decide (path ∈ unwritable w) then (w, Raise OSError)
    else (set_files (<[path := document]> (files w)) w, Ok tt)
  else (w, Ok tt).

Definition both_effects (p1 d1 p2 d2 : string) (sandbox : pyval) (w : world)
  : world * res unit :=
  match provision_effect p1 d1 sandbox w with
  | (w1, Ok _) => provision_effect p2 d2 sandbox w1
  | (w1, Raise e) => (w1, Raise e)
  end.

(** The lines of a file, one after the other. *)
Fixpoint join (lines : list string) : string :=
  match lines with
  | [] => ""
  | line :: rest => line ++ join rest
  end.

(** The descriptor [main] works with: the decoded document, or [{}]. *)
Definition executor_info (env : gmap string string) : pyval :=
  match env !! "MESOS_EXECUTORINFO_JSON" with
  | Some text =>
      match json_loads text with
      | Some v => v
      | None => PDict []
      end
  | None => PDict []
  end.

(** A file after [lines] were appended to it. *)
Definition appended (path : string) (lines : list string) (w : world) : world :=
  match lines with
  | [] => w
  | _ :: _ =>
      set_files (<[path := (default "" (files w !! path) ++ join lines)%string]>
                   (files w)) w
  end.

(** [needle in hay]. *)
Fixpoint occurs (needle hay : string) : bool :=
  String.prefix needle hay
  || match hay with
     | EmptyString => false
     | String _ hay' => occurs needle hay'
     end.

(** [r] with [Some] around its result. *)
Definition res_some {A} (r : res A) : res (option A) :=
  match r with
  | Ok a => Ok (Some a)
  | Raise e => Raise e
  end.

(** The levels lines 243 and 247 go through: [container.docker.image] and
    [framework_id.value], every level optional. *)
Definition image_typed (info : pyval) : bool :=
  optional_level "container"
    (optional_level "docker" (optional_level "image" (fun _ => true))) info.

Definition framework_typed (info : pyval) : bool :=
  optional_level "framework_id" (optional_level "value" (fun _ => true)) info.

(** ** Strings and format strings *)

Lemma append_empty_r (s : string) : (s ++ "")%string = s.
Proof.
  induction s as [|c s IH]; [reflexivity|].
  change (String c (s ++ "")%string = String c s). by rewrite IH.
Qed.

Lemma append_cancel_l (p s t : string) : (p ++ s)%string = (p ++ t)%string → s = t.
Proof.
  induction p as [|c p IH]; [done|].
  change (String c (p ++ s)%string = String c (p ++ t)%string → s = t).
  intros H. apply IH. by injection H.
Qed.

Lemma format_template_path (sandbox : pyval) :
  py_format "{}/filebeat.template.json" [sandbox]
  = Ok (py_str sandbox ++ "/filebeat.template.json")%string.
Proof. reflexivity. Qed.

Lemma format_template_x2_path (sandbox : pyval) :
  py_format "{}/filebeat.template-es2x.json" [sandbox]
  = Ok (py_str sandbox ++ "/filebeat.template-es2x.json")%string.
Proof. reflexivity. Qed.

Lemma format_sidecar_path (sandbox l : pyval) :
  py_format "{}/{}" [sandbox; l] = Ok (py_str sandbox ++ "/" ++ py_str l)%string.
Proof. rewrite <- (append_empty_r (py_str l)). reflexivity. Qed.

Lemma format_config_path (sandbox stream : pyval) :
  py_format "{}/filebeat-{}.yml" [sandbox; stream]
  = Ok (py_str sandbox ++ "/filebeat-" ++ py_str stream ++ ".yml")%string.
Proof. reflexivity. Qed.

Lemma format_template (IMAGE FRAMEWORK_ID sandbox stream host : pyval) :
  py_format template [IMAGE; FRAMEWORK_ID; sandbox; stream; host]
  = Ok (rendered IMAGE FRAMEWORK_ID sandbox stream host).
Proof. vm_compute. reflexivity. Qed.

(** ** The template provisioner *)

Lemma write_whole_file (path text : string) (w : world) :
  path ∉ unwritable w →
  (open_file path ModeW ;! fp_write path text)%io w
  = (set_files (<[path := text]> (files w)) w, Ok tt).
Proof.
  intros Hw. unfold io_bind, open_file, fp_write.
  rewrite bool_decide_eq_false_2 by done. cbn.
  rewrite lookup_insert_eq, insert_insert_eq. reflexivity.
Qed.

Lemma write_refused (path text : string) (w : world) :
  path ∈ unwritable w →
  (open_file path ModeW ;! fp_write path text)%io w = (w, Raise OSError).
Proof.
  intros Hw. unfold io_bind, open_file.
  by rewrite bool_decide_eq_true_2.
Qed.

(** One template: nothing happens when the file is there or the sandbox
    directory is not set; else the document is written, or the refusal of
    [open] is raised. *)
Lemma provision_run (fmt document path : string) (sandbox : pyval) (w : world) :
  py_format fmt [sandbox] = Ok path →
  provision fmt document sandbox w = provision_effect path document sandbox w.
Proof.
  intros Hfmt. unfold provision, provision_effect.
  unfold io_bind at 1. unfold io_lift. rewrite Hfmt.
  unfold io_bind at 1. unfold isfile.
  destruct (bool_decide (is_Some (files w !! path))); cbn [negb andb]; [done|].
  destruct (truthy sandbox); [|done].
  case_bool_decide.
  - by apply write_refused.
  - by apply write_whole_file.
Qed.

Lemma template_paths_differ (sandbox : pyval) :
  (py_str sandbox ++ "/filebeat.template.json")%string
  ≠ (py_str sandbox ++ "/filebeat.template-es2x.json")%string.
Proof. intros H. apply append_cancel_l in H. discriminate H. Qed.

Lemma template_provisioner_run (sandbox : pyval) (w : world) :
  template_provisioner sandbox w =
    both_effects (py_str sandbox ++ "/filebeat.template.json") template_json
                 (py_str sandbox ++ "/filebeat.template-es2x.json") template_json_x2
                 sandbox w.
Proof.
  unfold template_provisioner, io_bind, both_effects.
  rewrite (provision_run _ _ _ _ _ (format_template_path sandbox)).
  destruct (provision_effect _ template_json sandbox w) as [w1 [[]|e]]; [|done].
  apply provision_run, format_template_x2_path.
Qed.

Lemma effect_present (p d : string) (s : pyval) (w : world) (c : string) :
  files w !! p = Some c → provision_effect p d s w = (w, Ok tt).
Proof. intros H. unfold provision_effect. by rewrite bool_decide_eq_true_2 by eauto. Qed.

Lemma effect_unset (p d : string) (s : pyval) (w : world) :
  truthy s = false → provision_effect p d s w = (w, Ok tt).
Proof. intros H. unfold provision_effect. rewrite H. by case_bool_decide. Qed.

Lemma effect_refused (p d : string) (s : pyval) (w : world) :
  files w !! p = None → truthy s = true → p ∈ unwritable w →
  provision_effect p d s w = (w, Raise OSError).
Proof.
  intros H1 H2 H3. unfold provision_effect. rewrite H1, H2.
  rewrite bool_decide_eq_false_2 by (by intros [? ?]).
  by rewrite bool_decide_eq_true_2.
Qed.

Lemma effect_written (p d : string) (s : pyval) (w : world) :
  files w !! p = None → truthy s = true → p ∉ unwritable w →
  provision_effect p d s w = (set_files (<[p := d]> (files w)) w, Ok tt).
Proof.
  intros H1 H2 H3. unfold provision_effect. rewrite H1, H2.
  rewrite bool_decide_eq_false_2 by (by intros [? ?]).
  by rewrite bool_decide_eq_false_2.
Qed.

Ltac side_condition :=
  cbn [fst snd files set_files unwritable];
  repeat (rewrite lookup_insert_eq || rewrite lookup_insert_ne by congruence);
  eauto.

Ltac step_effect :=
  match goal with
  | |- context [provision_effect ?p ?d ?s ?w] =>
      first [ rewrite (effect_unset p d s w) by done
            | erewrite (effect_present p d s w) by side_condition
            | rewrite (effect_refused p d s w) by side_condition
            | rewrite (effect_written p d s w) by side_condition ]
  end;
  cbn [fst snd].

(** All the ways two provisions in a row can go. *)
Ltac provision_cases w p1 p2 sandbox :=
  unfold both_effects;
  destruct (files w !! p1) eqn:?, (files w !! p2) eqn:?, (truthy sandbox) eqn:?,
    (decide (p1 ∈ unwritable w)), (decide (p2 ∈ unwritable w));
  repeat step_effect; side_condition.

Lemma both_effects_fill (p1 d1 p2 d2 : string) (sandbox : pyval) (w : world) :
  p1 ≠ p2 → truthy sandbox = true → p1 ∉ unwritable w → p2 ∉ unwritable w →
  snd (both_effects p1 d1 p2 d2 sandbox w) = Ok tt
  ∧ (files w !! p1 = None → files (fst (both_effects p1 d1 p2 d2 sandbox w)) !! p1 = Some d1)
  ∧ (files w !! p2 = None → files (fst (both_effects p1 d1 p2 d2 sandbox w)) !! p2 = Some d2).
Proof.
  intros Hne Htrue Hw1 Hw2.
  provision_cases w p1 p2 sandbox; repeat split; intros; simplify_eq;
    try done; by side_condition.
Qed.

Lemma both_effects_keep (p1 d1 p2 d2 : string) (sandbox : pyval) (w : world) (c : string) :
  p1 ≠ p2 →
  (files w !! p1 = Some c → files (fst (both_effects p1 d1 p2 d2 sandbox w)) !! p1 = Some c)
  ∧ (files w !! p2 = Some c → files (fst (both_effects p1 d1 p2 d2 sandbox w)) !! p2 = Some c).
Proof.
  intros Hne.
  provision_cases w p1 p2 sandbox; repeat split; intros; simplify_eq;
    try done; by side_condition.
Qed.

Lemma both_effects_again (p1 d1 p2 d2 : string) (sandbox : pyval) (w : world) :
  p1 ≠ p2 →
  both_effects p1 d1 p2 d2 sandbox (fst (both_effects p1 d1 p2 d2 sandbox w))
  = (fst (both_effects p1 d1 p2 d2 sandbox w), snd (both_effects p1 d1 p2 d2 sandbox w)).
Proof. intros Hne. provision_cases w p1 p2 sandbox. Qed.

(** C4. The template provisioner fills in what is missing and keeps what is
    there. For each of the two index templates: when the sandbox directory
    is set, no file is at the target path and [open] does not refuse the two
    target paths, the run succeeds and the file holds the embedded document
    verbatim; a file already at the target path keeps its content, whatever
    it is; and a second run ends in the same world, with the same outcome,
    as the first one. *)
Theorem template_provisioner_fills_and_keeps
    (sandbox : pyval) (w : world) (name document : string) :
  (name, document) ∈ index_templates →
  let path := (py_str sandbox ++ name)%string in
  let after := fst (template_provisioner sandbox w) in
  (truthy sandbox = true → files w !! path = None →
   (∀ t, t ∈ index_templates → (py_str sandbox ++ t.1)%string ∉ unwritable w) →
   snd (template_provisioner sandbox w) = Ok tt
   ∧ files after !! path = Some document)
  ∧ (∀ content, files w !! path = Some content → files after !! path = Some content)
  ∧ template_provisioner sandbox after = (after, snd (template_provisioner sandbox w)).
Proof.
  intros Hin path after. subst path after.
  pose proof (template_paths_differ sandbox) as Hne.
  rewrite !template_provisioner_run.
  split; [|split].
  - intros Htrue Hnone Hw.
    pose proof (Hw (_, _) (list_elem_of_here _ _)) as Hw1.
    pose proof (Hw (_, _) (list_elem_of_further _ _ _ (list_elem_of_here _ _))) as Hw2.
    destruct (both_effects_fill _ template_json _ template_json_x2 _ _
                Hne Htrue Hw1 Hw2) as (Hok & Hfst & Hsnd).
    split; [done|].
    apply elem_of_cons in Hin as [Hin|Hin]; [injection Hin as -> ->; auto|].
    apply elem_of_cons in Hin as [Hin|Hin]; [injection Hin as -> ->; auto|].
    by apply elem_of_nil in Hin.
  - intros content Hsome.
    destruct (both_effects_keep _ template_json _ template_json_x2 sandbox w content Hne)
      as (Hfst & Hsnd).
    apply elem_of_cons in Hin as [Hin|Hin]; [injection Hin as -> ->; auto|].
    apply elem_of_cons in Hin as [Hin|Hin]; [injection Hin as -> ->; auto|].
    by apply elem_of_nil in Hin.
  - by apply both_effects_again.
Qed.

(** ** The output resolver *)

Lemma dict_get_raises (d : list (string * pyval)) (key : string) (e : exn) :
  dict_get d key = Raise e → e = KeyError.
Proof.
  induction d as [|[k v] d IH]; cbn; [congruence|].
  destruct (String.eqb k key); [congruence|exact IH].
Qed.

Lemma subscript_field (x : pyval) (key : string) :
  is_dict x = true →
  subscript x key = match field key x with Some v => Ok v | None => Raise KeyError end.
Proof.
  destruct x; try discriminate. intros _. cbn.
  destruct (dict_get items key) as [v|e] eqn:E; [done|].
  by rewrite (dict_get_raises _ _ _ E).
Qed.

Lemma has_key_is_dict (key : string) (x : pyval) : has_key key x = true → is_dict x = true.
Proof. by destruct x. Qed.

(** The comprehension over entries that are objects: it either raises
    KeyError, and then some entry is not shaped, or its first value is the
    value of the first entry named FILEBEAT_OUTPUT_HOST. *)
Lemma host_values_of_dicts (xs : list pyval) :
  forallb is_dict xs = true →
  match host_values xs with
  | Ok hs => head hs = (x ← find is_host_entry xs; field "value" x)
  | Raise e =>
      e = KeyError ∧ forallb entry_shaped xs = false
  end.
Proof.
  induction xs as [|x xs IH]; [done|].
  cbn [forallb host_values find]. intros [Hx Hxs]%andb_true_iff.
  specialize (IH Hxs).
  rewrite (subscript_field x "name" Hx).
  unfold entry_shaped at 1. unfold is_host_entry, has_key.
  destruct (field "name" x) as [n|]; cbn [res_bind andb]; [|done].
  destruct (eq_str n "FILEBEAT_OUTPUT_HOST"); cbn [mbind option_bind negb orb].
  - rewrite (subscript_field x "value" Hx).
    destruct (field "value" x) as [v|]; cbn [res_bind andb]; [|done].
    destruct (host_values xs) as [hs|e]; cbn [res_bind]; [done|].
    destruct IH as [-> IH]. by split.
  - destruct (host_values xs) as [hs|e]; [done|].
    destruct IH as [-> IH]. split; [done|].
    by rewrite IH, andb_false_r.
Qed.

Lemma host_values_unshaped (xs : list pyval) :
  forallb is_dict xs = true →
  forallb entry_shaped xs = false →
  host_values xs = Raise KeyError.
Proof.
  induction xs as [|x xs IH]; [done|].
  cbn [forallb host_values]. intros [Hx Hxs]%andb_true_iff Hbad.
  rewrite (subscript_field x "name" Hx).
  revert Hbad. unfold entry_shaped at 1. unfold is_host_entry, has_key.
  destruct (field "name" x) as [n|]; cbn [res_bind andb]; [|done].
  destruct (eq_str n "FILEBEAT_OUTPUT_HOST"); cbn [negb orb].
  - rewrite (subscript_field x "value" Hx).
    destruct (field "value" x) as [v|]; cbn [res_bind orb]; [|done].
    intros Hbad. by rewrite IH.
  - rewrite orb_true_r. cbn [andb]. intros Hbad. by rewrite IH.
Qed.

Lemma levels_typed_mono (f g : pyval → bool) (info : pyval) :
  (∀ x, f x = true → g x = true) →
  levels_typed f info = true → levels_typed g info = true.
Proof.
  intros Hfg. unfold levels_typed, optional_level.
  repeat (case_match; try done).
  unfold list_of. case_match; try done.
  rewrite !forallb_forall. auto.
Qed.

(** The lookup on a document whose levels are typed: it finds the declared
    host, or raises what [except (KeyError, IndexError)] catches. *)
Lemma find_output_host_typed (info : pyval) :
  levels_typed is_dict info = true →
  match find_output_host info with
  | Ok host => declared_host info = Some host
  | Raise e =>
      existsb (exn_eqb e) [KeyError; IndexError] = true
      ∧ (descriptor_shaped info = true → declared_host info = None)
  end.
Proof.
  unfold levels_typed, descriptor_shaped, levels_typed, find_output_host, declared_host.
  destruct info as [| | | | |?|d]; try discriminate. cbn [optional_level subscript field].
  destruct (dict_get d "command") as [c|e] eqn:Ec; cbn [res_bind mbind option_bind];
    [|by rewrite (dict_get_raises _ _ _ Ec)].
  destruct c as [| | | | |?|dc]; try discriminate. cbn [optional_level subscript field].
  destruct (dict_get dc "environment") as [en|e] eqn:Ee; cbn [res_bind mbind option_bind];
    [|by rewrite (dict_get_raises _ _ _ Ee)].
  destruct en as [| | | | |?|de]; try discriminate. cbn [optional_level subscript field].
  destruct (dict_get de "variables") as [vs|e] eqn:Ev; cbn [res_bind mbind option_bind];
    [|by rewrite (dict_get_raises _ _ _ Ev)].
  destruct vs as [| | | | |xs|?]; try discriminate. cbn [list_of py_iter res_bind].
  intros Hxs. pose proof (host_values_of_dicts xs Hxs) as H.
  destruct (host_values xs) as [hs|e]; cbn [res_bind].
  - rewrite <- H. destruct hs; cbn; [|done]. split; [done|]. by intros _.
  - destruct H as [-> H]. split; [done|]. by rewrite H.
Qed.

Lemma fallback_target_of_env (sandbox stream : option string) :
  fallback_target (of_env sandbox) (of_env stream)
  = Ok (spec_fallback sandbox stream).
Proof.
  unfold fallback_target, spec_fallback.
  destruct sandbox as [d|], stream as [l|]; cbn [of_env truthy known andb];
    try done; [|by rewrite andb_false_r].
  destruct (negb (d =? "")%string && negb (l =? "")%string); [|done].
  cbn [py_lower res_bind]. by rewrite format_sidecar_path.
Qed.

(** The lookup on a typed document with an entry that is not shaped. *)
Lemma find_output_host_unshaped (info : pyval) :
  levels_typed is_dict info = true →
  descriptor_shaped info = false →
  find_output_host info = Raise KeyError.
Proof.
  unfold descriptor_shaped, levels_typed, find_output_host.
  destruct info as [| | | | |?|d]; try discriminate. cbn [optional_level subscript].
  destruct (dict_get d "command") as [c|e]; [|discriminate].
  destruct c as [| | | | |?|dc]; try discriminate. cbn [optional_level subscript res_bind].
  destruct (dict_get dc "environment") as [en|e]; [|discriminate].
  destruct en as [| | | | |?|de]; try discriminate.
  cbn [optional_level subscript res_bind].
  destruct (dict_get de "variables") as [vs|e]; [|discriminate].
  destruct vs as [| | | | |xs|?]; try discriminate. cbn [list_of py_iter res_bind].
  intros Hxs Hbad. by rewrite host_values_unshaped.
Qed.

(** C1, as far as it holds. On every executor descriptor whose levels are
    missing or typed, and every context, the output resolver raises nothing.
    When every entry of command.environment.variables has a name, and a
    value if it is named FILEBEAT_OUTPUT_HOST, the answer follows the
    priority order of section 4.3: the value of the first entry named
    FILEBEAT_OUTPUT_HOST gives [Ship]; without such an entry, a known
    sandbox directory and a known stream label give [SidecarFile] on the
    directory, a slash and the lower-cased label; anything else gives
    [Passthrough]. When some entry has no name, or some entry named
    FILEBEAT_OUTPUT_HOST has no value, the answer is the sidecar file or
    passthrough of the same rule, whether or not another entry declares a
    host. *)
Theorem output_resolver_priority
    (info : pyval) (sandbox stream : option string) :
  levels_typed is_dict info = true →
  output_resolver info (of_env sandbox) (of_env stream)
  = Ok (if descriptor_shaped info
        then spec_target info sandbox stream
        else spec_fallback sandbox stream).
Proof.
  intros Htyped.
  destruct (descriptor_shaped info) eqn:Hshape.
  - pose proof (find_output_host_typed info Htyped) as H.
    unfold output_resolver, spec_target.
    destruct (find_output_host info) as [host|e].
    + by rewrite H.
    + destruct H as [-> H]. rewrite (H Hshape). apply fallback_target_of_env.
  - unfold output_resolver.
    rewrite (find_output_host_unshaped info Htyped Hshape).
    apply fallback_target_of_env.
Qed.

(** ** The copy loops and [main] by cases *)

Lemma append_assoc (a b c : string) : ((a ++ b) ++ c)%string = (a ++ b ++ c)%string.
Proof.
  induction a as [|x a IH]; [done|].
  change (String x ((a ++ b) ++ c)%string = String x (a ++ b ++ c)%string).
  by rewrite IH.
Qed.

Lemma append_lines_run (path line : string) (rest : list string) (w : world) :
  path ∉ unwritable w →
  append_lines path (line :: rest) w
  = (set_files (<[path := (default "" (files w !! path) ++ join (line :: rest))%string]>
                  (files w)) w, Ok tt).
Proof.
  revert line w. induction rest as [|line' rest IH]; intros line w Hw.
  - cbn [append_lines join]. unfold io_bind, open_file, fp_write, io_ret.
    rewrite bool_decide_eq_false_2 by done.
    cbn [files set_files]. rewrite lookup_insert_eq, insert_insert_eq.
    cbn [from_option id]. by rewrite append_empty_r.
  - change (append_lines path (line :: line' :: rest))
      with (open_file path ModeA ;! fp_write path line ;!
            append_lines path (line' :: rest))%io.
    unfold io_bind at 1 2. unfold open_file, fp_write.
    rewrite bool_decide_eq_false_2 by done.
    cbn [files set_files]. rewrite lookup_insert_eq, insert_insert_eq.
    rewrite IH by done.
    cbn [files set_files]. rewrite lookup_insert_eq, insert_insert_eq.
    cbn [from_option id].
    change (join (line :: line' :: rest)) with (line ++ join (line' :: rest))%string.
    by rewrite append_assoc.
Qed.

Lemma sidecar_copy_run (d l : string) (lines : list string) (w : world) :
  sidecar_copy (PStr d) (PStr l) lines w
  = append_lines (d ++ "/" ++ lower l) lines w.
Proof.
  revert w. induction lines as [|line rest IH]; intros w; [done|].
  cbn [sidecar_copy append_lines py_lower].
  unfold io_bind at 1 2. unfold io_lift. rewrite format_sidecar_path.
  cbn [py_str]. unfold io_bind.
  destruct (open_file _ ModeA w) as [w1 [[]|e]]; [|done].
  destruct (fp_write _ line w1) as [w2 [[]|e]]; [|done].
  apply IH.
Qed.

Lemma stdout_copy_run (lines : list string) (w : world) :
  stdout_copy lines w = (set_stdout (stdout w ++ lines) w, Ok tt).
Proof.
  revert w. induction lines as [|line rest IH]; intros w.
  - cbn. rewrite app_nil_r. by destruct w.
  - cbn [stdout_copy]. unfold io_bind, stdout_write. rewrite IH.
    cbn [stdout set_stdout]. by rewrite <- app_assoc.
Qed.

Lemma load_executor_info_run (env : gmap string string) :
  load_executor_info env = Ok (executor_info env).
Proof.
  unfold load_executor_info, executor_info, environ_get.
  destruct (env !! "MESOS_EXECUTORINFO_JSON") as [text|]; cbn; [|done].
  by destruct (json_loads text).
Qed.

Lemma environ_get_of_env (env : gmap string string) (name : string) :
  environ_get env name = of_env (env !! name).
Proof. reflexivity. Qed.

(** [main] is the provisioner followed by what the output resolver's
    target asks for. *)
Lemma main_dispatch (env : gmap string string) (stdin : list string) (w : world) :
  let info := executor_info env in
  let sandbox := environ_get env "MESOS_LOG_SANDBOX_DIRECTORY" in
  let stream := environ_get env "MESOS_LOG_STREAM" in
  main env stdin w =
    match template_provisioner sandbox w with
    | (w1, Ok _) =>
        match output_resolver info sandbox stream with
        | Ok target => dispatch info sandbox stream stdin target w1
        | Raise e => (w1, Raise e)
        end
    | (w1, Raise e) => (w1, Raise e)
    end.
Proof.
  intros info sandbox stream. unfold main.
  unfold io_bind at 1. unfold io_lift. rewrite load_executor_info_run.
  fold info sandbox stream. unfold io_bind at 1.
  destruct (template_provisioner sandbox w) as [w1 [[]|e]]; [|done].
  unfold output_resolver.
  destruct (find_output_host info) as [host|e]; [done|].
  destruct (existsb (exn_eqb e) [KeyError; IndexError]); [|done].
  subst sandbox stream. rewrite !environ_get_of_env, fallback_target_of_env.
  unfold fallback, dispatch, spec_fallback.
  destruct (env !! "MESOS_LOG_SANDBOX_DIRECTORY") as [d|],
           (env !! "MESOS_LOG_STREAM") as [l|];
    cbn [of_env truthy known andb]; try done.
  - destruct (negb (d =? "")%string && negb (l =? "")%string); [|done].
    unfold io_bind. by rewrite sidecar_copy_run.
  - by rewrite andb_false_r.
Qed.

Lemma provision_effect_frame (p d : string) (s : pyval) (w : world) :
  unwritable (fst (provision_effect p d s w)) = unwritable w
  ∧ executables (fst (provision_effect p d s w)) = executables w
  ∧ stdout (fst (provision_effect p d s w)) = stdout w
  ∧ ∀ q c, files w !! q = Some c → files (fst (provision_effect p d s w)) !! q = Some c.
Proof.
  unfold provision_effect.
  case_bool_decide as Hp; [done|].
  destruct (truthy s); [|done].
  case_bool_decide; [done|].
  cbn [fst files unwritable executables stdout set_files].
  repeat split. intros q c Hq.
  destruct (decide (p = q)) as [->|Hne]; [|by rewrite lookup_insert_ne].
  destruct Hp. eauto.
Qed.

Lemma template_provisioner_frame (sandbox : pyval) (w : world) :
  unwritable (fst (template_provisioner sandbox w)) = unwritable w
  ∧ executables (fst (template_provisioner sandbox w)) = executables w
  ∧ stdout (fst (template_provisioner sandbox w)) = stdout w
  ∧ ∀ q c, files w !! q = Some c
           → files (fst (template_provisioner sandbox w)) !! q = Some c.
Proof.
  rewrite template_provisioner_run. unfold both_effects.
  pose proof (provision_effect_frame (py_str sandbox ++ "/filebeat.template.json")
                template_json sandbox w) as (Hu & He & Ho & Hf).
  destruct (provision_effect _ template_json sandbox w) as [w1 [[]|e]];
    cbn [fst] in *; [|done].
  pose proof (provision_effect_frame (py_str sandbox ++ "/filebeat.template-es2x.json")
                template_json_x2 sandbox w1) as (Hu' & He' & Ho' & Hf').
  rewrite Hu', He', Ho'. split_and!; auto.
Qed.

Lemma template_provisioner_unset (sandbox : pyval) (w : world) :
  truthy sandbox = false → template_provisioner sandbox w = (w, Ok tt).
Proof.
  intros H. rewrite template_provisioner_run. unfold both_effects.
  by rewrite !effect_unset.
Qed.

(** ** The fallback modes *)

(** C7. In sidecar-file mode every input line is appended, in order, to
    the file named by the sandbox directory, a slash and the lower-cased
    stream label; what the file held before stays in front of the lines, and
    the script exits with status 0 at the end of the input. The hypotheses
    say that the sandbox directory and the stream label are known, that the
    resolver chose the sidecar file, that the template provisioner did not
    fail and that [open] does not refuse the sidecar file. *)
Theorem sidecar_file_appends_every_line
    (env : gmap string string) (stdin : list string) (w w1 : world)
    (d l path : string) :
  env !! "MESOS_LOG_SANDBOX_DIRECTORY" = Some d →
  env !! "MESOS_LOG_STREAM" = Some l →
  output_resolver (executor_info env) (PStr d) (PStr l) = Ok (SidecarFile path) →
  template_provisioner (PStr d) w = (w1, Ok tt) →
  path ∉ unwritable w →
  path = (d ++ "/" ++ lower l)%string
  ∧ main env stdin w = (appended path stdin w1, Ok None)
  ∧ (∀ content, files w !! path = Some content →
       files (appended path stdin w1) !! path = Some (content ++ join stdin)%string)
  ∧ (∀ q, q ≠ path → files (appended path stdin w1) !! q = files w1 !! q)
  ∧ script env stdin w = (appended path stdin w1, Finished (Exited 0)).
Proof.
  intros Hd Hl Hmode Hprov Hw.
  pose proof (template_provisioner_frame (PStr d) w) as (Hu & _ & _ & Hkeep).
  rewrite Hprov in Hu, Hkeep. cbn [fst] in Hu, Hkeep.
  assert (Hpath : path = (d ++ "/" ++ lower l)%string).
  { revert Hmode. unfold output_resolver.
    destruct (find_output_host (executor_info env)); [done|].
    destruct (existsb _ _); [|done].
    change (PStr d) with (of_env (Some d)). change (PStr l) with (of_env (Some l)).
    rewrite fallback_target_of_env. unfold spec_fallback.
    destruct (known (Some d) && known (Some l)); congruence. }
  assert (Hmain : main env stdin w = (appended path stdin w1, Ok None)).
  { rewrite main_dispatch. unfold environ_get. rewrite Hd, Hl, Hprov, Hmode.
    unfold dispatch, io_bind.
    destruct stdin as [|line rest]; [done|].
    rewrite append_lines_run by (by rewrite Hu). done. }
  split; [done|]. split; [done|]. split; [|split].
  - intros content Hc. apply Hkeep in Hc.
    destruct stdin as [|line rest]; cbn [appended join].
    + by rewrite append_empty_r.
    + cbn [files set_files]. by rewrite lookup_insert_eq, Hc.
  - intros q Hq. destruct stdin as [|line rest]; cbn [appended]; [done|].
    cbn [files set_files]. by rewrite lookup_insert_ne.
  - unfold script. by rewrite Hmain.
Qed.

(** C8. In passthrough mode, with no descriptor, no sandbox directory and
    no stream label in the environment, every input line goes unchanged and
    in order to standard output, no file is touched, and the script exits
    with status 0 at the end of the input. *)
Theorem passthrough_echoes_every_line
    (env : gmap string string) (stdin : list string) (w : world) :
  env !! "MESOS_EXECUTORINFO_JSON" = None →
  env !! "MESOS_LOG_SANDBOX_DIRECTORY" = None →
  env !! "MESOS_LOG_STREAM" = None →
  main env stdin w = (set_stdout (stdout w ++ stdin) w, Ok None)
  ∧ script env stdin w = (set_stdout (stdout w ++ stdin) w, Finished (Exited 0)).
Proof.
  intros Hinfo Hd Hl.
  assert (Hmain : main env stdin w = (set_stdout (stdout w ++ stdin) w, Ok None)).
  { rewrite main_dispatch. unfold environ_get, executor_info.
    rewrite Hinfo, Hd, Hl. rewrite template_provisioner_unset by done.
    cbn [output_resolver find_output_host subscript dict_get res_bind existsb exn_eqb
         orb fallback_target truthy andb dispatch].
    unfold io_bind. by rewrite stdout_copy_run. }
  split; [done|]. unfold script. by rewrite Hmain.
Qed.

(** ** Ship mode *)

Lemma prefix_append (n post : string) : String.prefix n (n ++ post) = true.
Proof.
  induction n as [|c n IH]; [by destruct post|].
  change (String.prefix (String c n) (String c (n ++ post)) = true).
  cbn [String.prefix]. destruct (ascii_dec c c); [exact IH|done].
Qed.

Lemma occurs_append (n pre post : string) : occurs n (pre ++ n ++ post) = true.
Proof.
  induction pre as [|c pre IH].
  - change (occurs n (n ++ post) = true).
    destruct (n ++ post)%string eqn:E; cbn [occurs];
      rewrite <- E, prefix_append; done.
  - change (occurs n (String c (pre ++ n ++ post)) = true).
    cbn [occurs]. rewrite IH. apply orb_true_r.
Qed.

Lemma rendered_has_image (IMAGE FRAMEWORK_ID sandbox stream host : pyval) :
  occurs (py_str IMAGE) (rendered IMAGE FRAMEWORK_ID sandbox stream host) = true.
Proof. unfold rendered, template_parts. apply occurs_append. Qed.

Lemma rendered_has_host (IMAGE FRAMEWORK_ID sandbox stream host : pyval) :
  occurs (py_str host) (rendered IMAGE FRAMEWORK_ID sandbox stream host) = true.
Proof.
  unfold rendered, template_parts.
  rewrite <- !append_assoc. rewrite (append_assoc _ (py_str host)).
  apply occurs_append.
Qed.

Lemma config_renderer_run (sandbox stream IMAGE FRAMEWORK_ID host : pyval) (w : world) :
  let path := (py_str sandbox ++ "/filebeat-" ++ py_str stream ++ ".yml")%string in
  config_renderer sandbox stream IMAGE FRAMEWORK_ID host w =
    if bool_decide (path ∈ unwritable w) then (w, Raise OSError)
    else (set_files (<[path := rendered IMAGE FRAMEWORK_ID sandbox stream host]> (files w)) w,
          Ok path).
Proof.
  intros path. unfold config_renderer.
  unfold io_bind at 1. unfold io_lift. rewrite format_config_path. fold path.
  unfold io_bind at 1. unfold open_file.
  case_bool_decide; [done|].
  unfold io_bind at 1. rewrite format_template.
  unfold io_bind, fp_write, io_ret.
  cbn [files set_files]. by rewrite lookup_insert_eq, insert_insert_eq.
Qed.

(** C5. In ship mode the configuration goes to the sandbox directory
    followed by [/filebeat-], the stream label as it is, not lower-cased,
    and [.yml]; whatever was at that path is replaced by the text rendered
    from the current values, in which the image and the host occur. With
    host es:9200, sandbox /s, stream STDOUT and image nginx the file is
    /s/filebeat-STDOUT.yml. *)
Theorem config_renderer_overwrites
    (sandbox stream IMAGE FRAMEWORK_ID host : pyval) (w : world) :
  let path := (py_str sandbox ++ "/filebeat-" ++ py_str stream ++ ".yml")%string in
  let text := rendered IMAGE FRAMEWORK_ID sandbox stream host in
  path ∉ unwritable w →
  config_renderer sandbox stream IMAGE FRAMEWORK_ID host w
  = (set_files (<[path := text]> (files w)) w, Ok path)
  ∧ files (fst (config_renderer sandbox stream IMAGE FRAMEWORK_ID host w)) !! path
    = Some text
  ∧ occurs (py_str IMAGE) text = true
  ∧ occurs (py_str host) text = true
  ∧ (sandbox = PStr "/s" → stream = PStr "STDOUT" → path = "/s/filebeat-STDOUT.yml").
Proof.
  intros path text Hw. rewrite config_renderer_run. fold path text.
  rewrite bool_decide_eq_false_2 by done. cbn [fst files set_files].
  rewrite lookup_insert_eq.
  split_and!; try done.
  - apply rendered_has_image.
  - apply rendered_has_host.
  - by intros -> ->.
Qed.

Lemma ship_run (info sandbox stream host IMAGE FRAMEWORK_ID : pyval) (w : world) :
  let path := (py_str sandbox ++ "/filebeat-" ++ py_str stream ++ ".yml")%string in
  let w' := set_files (<[path := rendered IMAGE FRAMEWORK_ID sandbox stream host]>
                         (files w)) w in
  docker_image info = Ok IMAGE →
  framework_id info = Ok FRAMEWORK_ID →
  path ∉ unwritable w →
  ship info sandbox stream host w =
    (w', res_some (snd (Popen [PStr "/usr/bin/filebeat"; PStr "-path.config"; sandbox;
                               PStr "-c"; PStr path] w'))).
Proof.
  intros path w' Himg Hfw Hw. unfold ship.
  unfold io_bind at 1. unfold io_lift. rewrite Himg.
  unfold io_bind at 1. rewrite Hfw.
  unfold io_bind at 1. rewrite config_renderer_run. fold path.
  rewrite bool_decide_eq_false_2 by done. fold w'.
  unfold io_bind, Popen, io_ret.
  destruct (str_args _) as [[|prog rest]|e]; try done.
  by case_bool_decide.
Qed.

(** C9. Ship mode is chosen on the host entry alone. Whenever the lookup
    of lines 220-223 yields a host, the resolver answers [Ship] whatever the
    sandbox directory and the stream label are, set or not; [main] then
    writes the rendered configuration to the path made of [str] of the two
    values, which is the text None for one that is not set, so that
    None/filebeat-None.yml is written when both are missing, and nothing is
    copied to standard output. The hypotheses say that the host is found,
    that the image and framework lookups raise nothing but KeyError, that the
    template provisioner did not fail and that [open] does not refuse the
    configuration path. *)
Theorem ship_mode_ignores_missing_context
    (env : gmap string string) (stdin : list string) (w : world)
    (host IMAGE FRAMEWORK_ID : pyval) :
  let info := executor_info env in
  let sandbox := environ_get env "MESOS_LOG_SANDBOX_DIRECTORY" in
  let stream := environ_get env "MESOS_LOG_STREAM" in
  let path := (py_str sandbox ++ "/filebeat-" ++ py_str stream ++ ".yml")%string in
  find_output_host info = Ok host →
  docker_image info = Ok IMAGE →
  framework_id info = Ok FRAMEWORK_ID →
  snd (template_provisioner sandbox w) = Ok tt →
  path ∉ unwritable w →
  (∀ d l : option string, output_resolver info (of_env d) (of_env l) = Ok (Ship host))
  ∧ files (fst (main env stdin w)) !! path
    = Some (rendered IMAGE FRAMEWORK_ID sandbox stream host)
  ∧ stdout (fst (main env stdin w)) = stdout w
  ∧ (env !! "MESOS_LOG_SANDBOX_DIRECTORY" = None → env !! "MESOS_LOG_STREAM" = None →
     path = "None/filebeat-None.yml").
Proof.
  intros info sandbox stream path Hhost Himg Hfw Hprov Hw.
  assert (Hres : ∀ a b, output_resolver info a b = Ok (Ship host)).
  { intros a b. unfold output_resolver. by rewrite Hhost. }
  pose proof (template_provisioner_frame sandbox w) as (Hu & _ & Ho & _).
  rewrite main_dispatch. fold info sandbox stream. rewrite Hres.
  destruct (template_provisioner sandbox w) as [w1 [[]|e]]; [|done].
  cbn [fst] in Hu, Ho. cbn [dispatch].
  rewrite (ship_run info sandbox stream host IMAGE FRAMEWORK_ID w1 Himg Hfw)
    by (by rewrite Hu).
  cbn [fst files stdout set_files]. fold path. rewrite lookup_insert_eq.
  split_and!; try done.
  intros Hd Hl. subst path sandbox stream. unfold environ_get. by rewrite Hd, Hl.
Qed.

(** ** Empty values *)

Lemma output_resolver_falsy_sandbox (info a b stream : pyval) :
  truthy a = false → truthy b = false →
  output_resolver info a stream = output_resolver info b stream.
Proof.
  intros Ha Hb. unfold output_resolver, fallback_target. by rewrite Ha, Hb.
Qed.

Lemma output_resolver_falsy_stream (info sandbox a b : pyval) :
  truthy a = false → truthy b = false →
  output_resolver info sandbox a = output_resolver info sandbox b.
Proof.
  intros Ha Hb. unfold output_resolver, fallback_target.
  by rewrite Ha, Hb, !andb_false_r.
Qed.

(** C10. An empty sandbox directory or stream label counts as a missing
    one wherever the program decides on it: with the empty string for the
    sandbox directory the template provisioner writes nothing, as without
    one; the resolver answers the same for an empty as for a missing
    directory, and the same for an empty as for a missing label; and when
    the host lookup ends in KeyError or IndexError that answer is
    [Passthrough], never [SidecarFile]. *)
Theorem empty_is_absent
    (info : pyval) (other : option string) (w : world) :
  template_provisioner (of_env (Some "")) w = (w, Ok tt)
  ∧ template_provisioner (of_env None) w = (w, Ok tt)
  ∧ output_resolver info (of_env (Some "")) (of_env other)
    = output_resolver info (of_env None) (of_env other)
  ∧ output_resolver info (of_env other) (of_env (Some ""))
    = output_resolver info (of_env other) (of_env None)
  ∧ (∀ e, find_output_host info = Raise e →
          existsb (exn_eqb e) [KeyError; IndexError] = true →
          output_resolver info (of_env (Some "")) (of_env other) = Ok Passthrough
          ∧ output_resolver info (of_env other) (of_env (Some "")) = Ok Passthrough).
Proof.
  split_and!.
  - by apply template_provisioner_unset.
  - by apply template_provisioner_unset.
  - by apply output_resolver_falsy_sandbox.
  - by apply output_resolver_falsy_stream.
  - intros e He Hcaught. unfold output_resolver, fallback_target.
    rewrite He, Hcaught. cbn [of_env truthy String.eqb negb andb].
    by rewrite andb_false_r.
Qed.

(** ** Malformed descriptors *)

(** A document that is no object makes the first subscript of line 221
    raise TypeError, which [except (KeyError, IndexError)] lets through. *)
Lemma output_resolver_rejects_non_object (info sandbox stream : pyval) :
  is_dict info = false → output_resolver info sandbox stream = Raise TypeError.
Proof. by destruct info. Qed.

(** C3, as far as it holds. The output resolver raises nothing when the
    descriptor variable is missing, when its text does not decode, and when
    it decodes to an object whose levels, where present, have their types
    (the entries of the list being objects, with or without name and value):
    it then answers with a target, and with the sidecar file or passthrough
    of section 4.3 when no host is declared. Missing or undecodable text
    gives the empty descriptor, which declares none. *)
Theorem output_resolver_tolerates_absence
    (env : gmap string string) (sandbox stream : option string) :
  let info := executor_info env in
  env !! "MESOS_EXECUTORINFO_JSON" = None
  ∨ (∃ text, env !! "MESOS_EXECUTORINFO_JSON" = Some text ∧ json_loads text = None)
  ∨ levels_typed is_dict info = true →
  load_executor_info env = Ok info
  ∧ (env !! "MESOS_EXECUTORINFO_JSON" = None
     ∨ (∃ text, env !! "MESOS_EXECUTORINFO_JSON" = Some text ∧ json_loads text = None)
     → info = PDict [])
  ∧ ∃ target,
      output_resolver info (of_env sandbox) (of_env stream) = Ok target
      ∧ (declared_host info = None →
         target = spec_fallback sandbox stream
         ∧ (target = Passthrough ∨ ∃ path, target = SidecarFile path)).
Proof.
  intros info Hcases.
  assert (Hempty : env !! "MESOS_EXECUTORINFO_JSON" = None
     ∨ (∃ text, env !! "MESOS_EXECUTORINFO_JSON" = Some text ∧ json_loads text = None)
     → info = PDict []).
  { subst info. unfold executor_info. intros [->|(text & -> & ->)]; done. }
  assert (Htyped : levels_typed is_dict info = true).
  { destruct Hcases as [H|[H|H]]; [| |done]; by rewrite Hempty by auto. }
  split; [apply load_executor_info_run|]. split; [done|].
  pose proof (find_output_host_typed info Htyped) as H.
  unfold output_resolver.
  destruct (find_output_host info) as [host|e].
  - eexists. split; [done|]. by rewrite H.
  - destruct H as [-> _]. rewrite fallback_target_of_env.
    eexists. split; [done|]. intros _. split; [done|].
    unfold spec_fallback. repeat case_match; eauto.
Qed.

(** ** Failures and edge cases of [main] *)

Lemma truthy_nonempty (d : string) : d ≠ "" → truthy (PStr d) = true.
Proof. intros H. cbn. by apply negb_true_iff, String.eqb_neq. Qed.

(** X1. A template that cannot be written ends the run: when the sandbox
    directory is set, the first template is missing and [open] refuses its
    path, [main] raises OSError before anything else happens, so that
    nothing is written or echoed whatever the descriptor and the input are,
    and the script exits with status 1. *)
Theorem template_write_failure_is_fatal
    (env : gmap string string) (stdin : list string) (w : world) (d : string) :
  env !! "MESOS_LOG_SANDBOX_DIRECTORY" = Some d →
  d ≠ "" →
  files w !! (d ++ "/filebeat.template.json")%string = None →
  (d ++ "/filebeat.template.json")%string ∈ unwritable w →
  main env stdin w = (w, Raise OSError)
  ∧ script env stdin w = (w, Finished (Exited 1)).
Proof.
  intros Hd Hne Hnone Hlock.
  assert (Hmain : main env stdin w = (w, Raise OSError)).
  { rewrite main_dispatch. unfold environ_get. rewrite Hd.
    rewrite template_provisioner_run. unfold both_effects.
    by rewrite effect_refused by (done || by apply truthy_nonempty). }
  split; [done|]. unfold script. by rewrite Hmain.
Qed.

(** X2. A descriptor that decodes to something other than an object stops
    [main] with TypeError only after the template provisioner has run: the
    templates are in place, no line is copied and the script exits with
    status 1. *)
Theorem non_object_descriptor_fails_after_provisioning
    (env : gmap string string) (stdin : list string) (w w1 : world) :
  is_dict (executor_info env) = false →
  template_provisioner (environ_get env "MESOS_LOG_SANDBOX_DIRECTORY") w = (w1, Ok tt) →
  main env stdin w = (w1, Raise TypeError)
  ∧ stdout w1 = stdout w
  ∧ script env stdin w = (w1, Finished (Exited 1)).
Proof.
  intros Hobj Hprov.
  pose proof (template_provisioner_frame
                (environ_get env "MESOS_LOG_SANDBOX_DIRECTORY") w) as (_ & _ & Hout & _).
  rewrite Hprov in Hout.
  assert (Hmain : main env stdin w = (w1, Raise TypeError)).
  { rewrite main_dispatch, Hprov.
    by rewrite output_resolver_rejects_non_object. }
  split; [done|]. split; [done|]. unfold script. by rewrite Hmain.
Qed.

(** X3. The comprehension of lines 220-223 looks at every entry before the
    first match is taken: in a descriptor whose levels are typed, a single
    entry without a name, or a single entry named FILEBEAT_OUTPUT_HOST
    without a value, anywhere in the list, makes the lookup raise KeyError,
    and the run falls back to the sidecar file or to passthrough even when
    another entry declares a host. *)
Theorem one_bad_entry_disables_shipping
    (info : pyval) (sandbox stream : option string) :
  levels_typed is_dict info = true →
  descriptor_shaped info = false →
  find_output_host info = Raise KeyError
  ∧ output_resolver info (of_env sandbox) (of_env stream)
    = Ok (spec_fallback sandbox stream).
Proof.
  intros Htyped Hbad.
  assert (Hfind : find_output_host info = Raise KeyError).
  { revert Htyped Hbad.
    unfold descriptor_shaped, levels_typed, find_output_host.
    destruct info as [| | | | |?|d]; try discriminate. cbn [optional_level subscript].
    destruct (dict_get d "command") as [c|e]; [|discriminate].
    destruct c as [| | | | |?|dc]; try discriminate. cbn [optional_level subscript res_bind].
    destruct (dict_get dc "environment") as [en|e]; [|discriminate].
    destruct en as [| | | | |?|de]; try discriminate.
    cbn [optional_level subscript res_bind].
    destruct (dict_get de "variables") as [vs|e]; [|discriminate].
    destruct vs as [| | | | |xs|?]; try discriminate. cbn [list_of py_iter res_bind].
    intros Hxs Hbad. by rewrite host_values_unshaped. }
  split; [done|].
  unfold output_resolver. rewrite Hfind. apply fallback_target_of_env.
Qed.

(** X4. In ship mode [main] leaves the input alone: when the host lookup
    succeeds, the world [main] ends in and what it returns are the same for
    every input, since no line is read before the agent takes over. *)
Theorem ship_mode_reads_no_input
    (env : gmap string string) (stdin : list string) (w : world) (host : pyval) :
  find_output_host (executor_info env) = Ok host →
  main env stdin w = main env [] w.
Proof.
  intros Hhost. rewrite !main_dispatch.
  destruct (template_provisioner _ w) as [w1 [[]|e]]; [|done].
  unfold output_resolver. by rewrite Hhost.
Qed.

(** [main] in ship mode, up to the call of [Popen]. *)
Lemma main_ship (env : gmap string string) (stdin : list string) (w w1 : world)
    (host IMAGE FRAMEWORK_ID : pyval) :
  let info := executor_info env in
  let sandbox := environ_get env "MESOS_LOG_SANDBOX_DIRECTORY" in
  let stream := environ_get env "MESOS_LOG_STREAM" in
  let path := (py_str sandbox ++ "/filebeat-" ++ py_str stream ++ ".yml")%string in
  let w' := set_files (<[path := rendered IMAGE FRAMEWORK_ID sandbox stream host]>
                         (files w1)) w1 in
  find_output_host info = Ok host →
  docker_image info = Ok IMAGE →
  framework_id info = Ok FRAMEWORK_ID →
  template_provisioner sandbox w = (w1, Ok tt) →
  path ∉ unwritable w →
  main env stdin w =
    (w', res_some (snd (Popen [PStr "/usr/bin/filebeat"; PStr "-path.config"; sandbox;
                               PStr "-c"; PStr path] w'))).
Proof.
  intros info sandbox stream path w' Hhost Himg Hfw Hprov Hw.
  pose proof (template_provisioner_frame sandbox w) as (Hu & _).
  rewrite Hprov in Hu. cbn [fst] in Hu.
  rewrite main_dispatch. fold info sandbox stream. rewrite Hprov.
  unfold output_resolver. rewrite Hhost. cbn [dispatch].
  by rewrite (ship_run info sandbox stream host IMAGE FRAMEWORK_ID w1 Himg Hfw)
    by (by rewrite Hu).
Qed.

(** X5. The agent's command line. In ship mode with the sandbox directory
    set, the configuration written and filebeat installed, [main] returns
    the process started as
    [/usr/bin/filebeat -path.config <sandbox> -c <sandbox>/filebeat-<stream>.yml],
    and the script goes on to supervise it. *)
Theorem agent_command_line
    (env : gmap string string) (stdin : list string) (w w1 : world) (d : string)
    (host IMAGE FRAMEWORK_ID : pyval) :
  let info := executor_info env in
  let stream := environ_get env "MESOS_LOG_STREAM" in
  let path := (d ++ "/filebeat-" ++ py_str stream ++ ".yml")%string in
  env !! "MESOS_LOG_SANDBOX_DIRECTORY" = Some d →
  find_output_host info = Ok host →
  docker_image info = Ok IMAGE →
  framework_id info = Ok FRAMEWORK_ID →
  template_provisioner (PStr d) w = (w1, Ok tt) →
  path ∉ unwritable w →
  "/usr/bin/filebeat" ∈ executables w →
  snd (main env stdin w)
  = Ok (Some (Process ["/usr/bin/filebeat"; "-path.config"; d; "-c"; path]))
  ∧ snd (script env stdin w) = Supervising false Running.
Proof.
  intros info stream path Hd Hhost Himg Hfw Hprov Hw Hexec.
  pose proof (template_provisioner_frame (PStr d) w) as (_ & He & _).
  rewrite Hprov in He. cbn [fst] in He.
  assert (Hmain : snd (main env stdin w)
    = Ok (Some (Process ["/usr/bin/filebeat"; "-path.config"; d; "-c"; path]))).
  { rewrite (main_ship env stdin w w1 host IMAGE FRAMEWORK_ID);
      unfold environ_get; rewrite ?Hd; try done.
    cbn [snd py_str]. unfold Popen. cbn [str_args res_bind executables set_files].
    rewrite bool_decide_eq_true_2 by (by rewrite He). done. }
  split; [done|]. unfold script.
  destruct (main env stdin w) as [w' r]. cbn [snd] in Hmain. by rewrite Hmain.
Qed.

(** X6. Ship mode without a sandbox directory: the configuration is
    written to [None/filebeat-<stream>.yml], and [Popen] then raises
    TypeError on the missing [-path.config] argument; the file stays behind,
    no agent runs and the script exits with status 1. *)
Theorem ship_without_sandbox_fails_at_spawn
    (env : gmap string string) (stdin : list string) (w : world)
    (host IMAGE FRAMEWORK_ID : pyval) :
  let info := executor_info env in
  let stream := environ_get env "MESOS_LOG_STREAM" in
  let path := ("None/filebeat-" ++ py_str stream ++ ".yml")%string in
  env !! "MESOS_LOG_SANDBOX_DIRECTORY" = None →
  find_output_host info = Ok host →
  docker_image info = Ok IMAGE →
  framework_id info = Ok FRAMEWORK_ID →
  path ∉ unwritable w →
  main env stdin w
  = (set_files (<[path := rendered IMAGE FRAMEWORK_ID PNone stream host]> (files w)) w,
     Raise TypeError)
  ∧ snd (script env stdin w) = Finished (Exited 1).
Proof.
  intros info stream path Hd Hhost Himg Hfw Hw.
  assert (Hmain : main env stdin w
    = (set_files (<[path := rendered IMAGE FRAMEWORK_ID PNone stream host]> (files w)) w,
       Raise TypeError)).
  { rewrite (main_ship env stdin w w host IMAGE FRAMEWORK_ID);
      unfold environ_get; rewrite ?Hd; try done.
    by apply template_provisioner_unset. }
  split; [done|]. unfold script. by rewrite Hmain.
Qed.

(** X7. Ship mode without filebeat: when [/usr/bin/filebeat] cannot be
    executed, [Popen] raises OSError after the configuration has been
    written; nothing is retried and the script exits with status 1. *)
Theorem missing_agent_is_fatal
    (env : gmap string string) (stdin : list string) (w w1 : world) (d : string)
    (host IMAGE FRAMEWORK_ID : pyval) :
  let info := executor_info env in
  let stream := environ_get env "MESOS_LOG_STREAM" in
  let path := (d ++ "/filebeat-" ++ py_str stream ++ ".yml")%string in
  env !! "MESOS_LOG_SANDBOX_DIRECTORY" = Some d →
  find_output_host info = Ok host →
  docker_image info = Ok IMAGE →
  framework_id info = Ok FRAMEWORK_ID →
  template_provisioner (PStr d) w = (w1, Ok tt) →
  path ∉ unwritable w →
  "/usr/bin/filebeat" ∉ executables w →
  main env stdin w
  = (set_files (<[path := rendered IMAGE FRAMEWORK_ID (PStr d) stream host]> (files w1)) w1,
     Raise OSError)
  ∧ snd (script env stdin w) = Finished (Exited 1).
Proof.
  intros info stream path Hd Hhost Himg Hfw Hprov Hw Hexec.
  pose proof (template_provisioner_frame (PStr d) w) as (_ & He & _).
  rewrite Hprov in He. cbn [fst] in He.
  assert (Hmain : main env stdin w
    = (set_files (<[path := rendered IMAGE FRAMEWORK_ID (PStr d) stream host]> (files w1)) w1,
       Raise OSError)).
  { rewrite (main_ship env stdin w w1 host IMAGE FRAMEWORK_ID);
      unfold environ_get; rewrite ?Hd; try done.
    cbn [py_str]. unfold Popen. cbn [str_args res_bind executables set_files].
    rewrite bool_decide_eq_false_2 by (by rewrite He). done. }
  split; [done|]. unfold script. by rewrite Hmain.
Qed.

(** X8. A configuration that cannot be written ends the run before any
    process is started: in ship mode, when [open] refuses the configuration
    path, [main] raises OSError in the world the template provisioner left,
    and the script exits with status 1. *)
Theorem config_write_failure_is_fatal
    (env : gmap string string) (stdin : list string) (w w1 : world)
    (host IMAGE FRAMEWORK_ID : pyval) :
  let info := executor_info env in
  let sandbox := environ_get env "MESOS_LOG_SANDBOX_DIRECTORY" in
  let stream := environ_get env "MESOS_LOG_STREAM" in
  let path := (py_str sandbox ++ "/filebeat-" ++ py_str stream ++ ".yml")%string in
  find_output_host info = Ok host →
  docker_image info = Ok IMAGE →
  framework_id info = Ok FRAMEWORK_ID →
  template_provisioner sandbox w = (w1, Ok tt) →
  path ∈ unwritable w →
  main env stdin w = (w1, Raise OSError)
  ∧ snd (script env stdin w) = Finished (Exited 1).
Proof.
  intros info sandbox stream path Hhost Himg Hfw Hprov Hw.
  pose proof (template_provisioner_frame sandbox w) as (Hu & _).
  rewrite Hprov in Hu. cbn [fst] in Hu.
  assert (Hmain : main env stdin w = (w1, Raise OSError)).
  { rewrite main_dispatch. fold info sandbox stream. rewrite Hprov.
    unfold output_resolver. rewrite Hhost. cbn [dispatch]. unfold ship.
    unfold io_bind at 1. unfold io_lift. rewrite Himg.
    unfold io_bind at 1. rewrite Hfw.
    unfold io_bind at 1. rewrite config_renderer_run. fold path.
    by rewrite bool_decide_eq_true_2 by (by rewrite Hu). }
  split; [done|]. unfold script. by rewrite Hmain.
Qed.

(** X9. The image and the framework identifier default to the empty text:
    on a descriptor whose [container.docker.image] and [framework_id.value]
    levels are missing or typed, lines 240-249 raise nothing and yield the
    value found at the end of each chain, or the empty text when a level is
    missing. *)
Theorem image_and_framework_default_to_empty (info : pyval) :
  image_typed info = true →
  framework_typed info = true →
  docker_image info
  = Ok (default (PStr "")
          (c ← field "container" info; d ← field "docker" c; field "image" d))
  ∧ framework_id info
    = Ok (default (PStr "") (f ← field "framework_id" info; field "value" f)).
Proof.
  unfold image_typed, framework_typed, docker_image, framework_id, catch.
  destruct info as [| | | | |?|d]; try discriminate.
  cbn [optional_level subscript field].
  intros Himg Hfw. split.
  - clear Hfw. revert Himg.
    destruct (dict_get d "container") as [c|e] eqn:Ec; cbn [res_bind mbind option_bind];
      [|by rewrite (dict_get_raises _ _ _ Ec)].
    destruct c as [| | | | |?|dc]; try discriminate. cbn [optional_level subscript field].
    destruct (dict_get dc "docker") as [k|e] eqn:Ek; cbn [res_bind mbind option_bind];
      [|by rewrite (dict_get_raises _ _ _ Ek)].
    destruct k as [| | | | |?|dk]; try discriminate. cbn [optional_level subscript field].
    destruct (dict_get dk "image") as [i|e] eqn:Ei; [done|].
    by rewrite (dict_get_raises _ _ _ Ei).
  - clear Himg. revert Hfw.
    destruct (dict_get d "framework_id") as [f|e] eqn:Ef; cbn [res_bind mbind option_bind];
      [|by rewrite (dict_get_raises _ _ _ Ef)].
    destruct f as [| | | | |?|df]; try discriminate. cbn [optional_level subscript field].
    destruct (dict_get df "value") as [v|e] eqn:Ev; [done|].
    by rewrite (dict_get_raises _ _ _ Ev).
Qed.

Lemma append_lines_refused (path line : string) (rest : list string) (w : world) :
  path ∈ unwritable w →
  append_lines path (line :: rest) w = (w, Raise OSError).
Proof.
  intros Hw. cbn [append_lines]. unfold io_bind at 1. unfold open_file.
  by rewrite bool_decide_eq_true_2.
Qed.

(** X10. A sidecar file that cannot be opened: with an empty input the file
    is never opened, so [main] returns normally and creates nothing; with at
    least one line the first [open] raises OSError, no line is written or
    echoed, and the script exits with status 1. *)
Theorem sidecar_open_failure
    (env : gmap string string) (w w1 : world) (d l path : string) :
  env !! "MESOS_LOG_SANDBOX_DIRECTORY" = Some d →
  env !! "MESOS_LOG_STREAM" = Some l →
  output_resolver (executor_info env) (PStr d) (PStr l) = Ok (SidecarFile path) →
  template_provisioner (PStr d) w = (w1, Ok tt) →
  path ∈ unwritable w →
  main env [] w = (w1, Ok None)
  ∧ (∀ line rest,
       main env (line :: rest) w = (w1, Raise OSError)
       ∧ script env (line :: rest) w = (w1, Finished (Exited 1))).
Proof.
  intros Hd Hl Hmode Hprov Hw.
  pose proof (template_provisioner_frame (PStr d) w) as (Hu & _).
  rewrite Hprov in Hu. cbn [fst] in Hu.
  assert (Hmain : ∀ stdin, main env stdin w
    = match append_lines path stdin w1 with
      | (w2, Ok _) => (w2, Ok None)
      | (w2, Raise e) => (w2, Raise e)
      end).
  { intros stdin. rewrite main_dispatch. unfold environ_get.
    by rewrite Hd, Hl, Hprov, Hmode. }
  split; [by rewrite Hmain|].
  intros line rest.
  assert (Hrun : main env (line :: rest) w = (w1, Raise OSError)).
  { rewrite Hmain. by rewrite append_lines_refused by (by rewrite Hu). }
  split; [done|]. unfold script. by rewrite Hrun.
Qed.

(** X11. Passthrough beside a sandbox: whenever the host lookup ends in
    KeyError or IndexError and the sandbox directory or the stream label is
    not known, [main] echoes every input line to standard output in the
    world the template provisioner left, so a sandbox directory without a
    stream label still gets its templates, and returns no process. *)
Theorem passthrough_after_provisioning
    (env : gmap string string) (stdin : list string) (w w1 : world) (e : exn) :
  let sandbox := environ_get env "MESOS_LOG_SANDBOX_DIRECTORY" in
  let stream := environ_get env "MESOS_LOG_STREAM" in
  find_output_host (executor_info env) = Raise e →
  existsb (exn_eqb e) [KeyError; IndexError] = true →
  truthy sandbox && truthy stream = false →
  template_provisioner sandbox w = (w1, Ok tt) →
  main env stdin w = (set_stdout (stdout w ++ stdin) w1, Ok None)
  ∧ files (fst (main env stdin w)) = files w1
  ∧ script env stdin w = (set_stdout (stdout w ++ stdin) w1, Finished (Exited 0)).
Proof.
  intros sandbox stream Hfind Hcaught Hunknown Hprov.
  pose proof (template_provisioner_frame sandbox w) as (_ & _ & Hout & _).
  rewrite Hprov in Hout. cbn [fst] in Hout.
  assert (Hmain : main env stdin w = (set_stdout (stdout w ++ stdin) w1, Ok None)).
  { rewrite main_dispatch. fold sandbox stream. rewrite Hprov.
    unfold output_resolver, fallback_target. rewrite Hfind, Hcaught, Hunknown.
    cbn [dispatch]. unfold io_bind. by rewrite stdout_copy_run, Hout. }
  split; [done|]. split; [by rewrite Hmain|].
  unfold script. by rewrite Hmain.
Qed.

Lemma ship_keeps_stdout (info sandbox stream host : pyval) (w : world) :
  stdout (fst (ship info sandbox stream host w)) = stdout w.
Proof.
  unfold ship. unfold io_bind at 1. unfold io_lift.
  destruct (docker_image info) as [IMAGE|e]; [|done].
  unfold io_bind at 1. destruct (framework_id info) as [FRAMEWORK_ID|e]; [|done].
  unfold io_bind at 1. rewrite config_renderer_run.
  case_bool_decide; [done|].
  unfold io_bind, Popen, io_ret.
  destruct (str_args _) as [[|prog rest]|e]; try done.
  by case_bool_decide.
Qed.

Lemma append_lines_keeps_stdout (path : string) (lines : list string) (w : world) :
  stdout (fst (append_lines path lines w)) = stdout w.
Proof.
  destruct lines as [|line rest]; [done|].
  destruct (decide (path ∈ unwritable w)).
  - by rewrite append_lines_refused.
  - by rewrite append_lines_run.
Qed.

(** X12. One way out per run. For every environment, input and world,
    either [main] leaves standard output as it was, or it wrote no file
    besides what the template provisioner wrote and returned no process:
    lines are never echoed in a run that writes a sidecar file, renders a
    configuration or starts the agent. *)
Theorem echo_excludes_files_and_agent
    (env : gmap string string) (stdin : list string) (w : world) :
  let provisioned :=
    fst (template_provisioner (environ_get env "MESOS_LOG_SANDBOX_DIRECTORY") w) in
  stdout (fst (main env stdin w)) = stdout w
  ∨ (files (fst (main env stdin w)) = files provisioned
     ∧ snd (main env stdin w) = Ok None).
Proof.
  intros provisioned. subst provisioned.
  pose proof (template_provisioner_frame
                (environ_get env "MESOS_LOG_SANDBOX_DIRECTORY") w) as (_ & _ & Hout & _).
  rewrite main_dispatch.
  destruct (template_provisioner _ w) as [w1 [[]|e]]; cbn [fst] in *; [|by left].
  destruct (output_resolver _ _ _) as [[host|path|]|e]; cbn [dispatch fst].
  - left. by rewrite ship_keeps_stdout.
  - left. unfold io_bind.
    pose proof (append_lines_keeps_stdout path stdin w1) as Hkeep.
    destruct (append_lines path stdin w1) as [w2 [[]|e]];
      unfold io_ret; cbn [fst] in *; congruence.
  - right. unfold io_bind. by rewrite stdout_copy_run.
  - by left.
Qed.

Lemma occurs_skip (n pre rest : string) :
  occurs n rest = true → occurs n (pre ++ rest) = true.
Proof.
  intros H. induction pre as [|c pre IH]; [done|].
  change (occurs n (String c (pre ++ rest)) = true).
  cbn [occurs]. rewrite IH. apply orb_true_r.
Qed.

(** X13. What the configuration file holds: when [open] does not refuse
    its path, the file [config_renderer] leaves there is the template
    formatted by [str.format] with the five values, and the text of the
    framework identifier, of the sandbox directory and of the stream label
    occur in it as they were given. *)
Theorem rendered_carries_context
    (sandbox stream IMAGE FRAMEWORK_ID host : pyval) (w : world) :
  let path := (py_str sandbox ++ "/filebeat-" ++ py_str stream ++ ".yml")%string in
  path ∉ unwritable w →
  ∃ text,
    py_format template [IMAGE; FRAMEWORK_ID; sandbox; stream; host] = Ok text
    ∧ files (fst (config_renderer sandbox stream IMAGE FRAMEWORK_ID host w)) !! path
      = Some text
    ∧ occurs (py_str FRAMEWORK_ID) text = true
    ∧ occurs (py_str sandbox) text = true
    ∧ occurs (py_str stream) text = true.
Proof.
  intros path Hw. exists (rendered IMAGE FRAMEWORK_ID sandbox stream host).
  split; [apply format_template|]. split.
  - rewrite config_renderer_run. fold path.
    rewrite bool_decide_eq_false_2 by done.
    cbn [fst files set_files]. by rewrite lookup_insert_eq.
  - unfold rendered, template_parts. split_and!.
    + do 2 apply occurs_skip. apply occurs_append.
    + do 4 apply occurs_skip. apply occurs_append.
    + do 6 apply occurs_skip. apply occurs_append.
Qed.

Lemma lower_empty (l : string) : String.eqb (lower l) "" = String.eqb l "".
Proof. by destruct l. Qed.

(** X14. The sidecar file does not depend on the case of the stream label:
    two labels with the same lower-cased text give the same answer of the
    resolver, for every descriptor and sandbox directory. *)
Theorem sidecar_ignores_label_case (info sandbox : pyval) (l1 l2 : string) :
  lower l1 = lower l2 →
  output_resolver info sandbox (PStr l1) = output_resolver info sandbox (PStr l2).
Proof.
  intros Hlow. unfold output_resolver, fallback_target.
  cbn [truthy py_lower res_bind].
  rewrite <- (lower_empty l1), <- (lower_empty l2). by rewrite Hlow.
Qed.

(** X17. No rollback in the template provisioner: when the sandbox
    directory is set, both templates are missing and [open] refuses only the
    second path, the first template is written and stays, and [main] ends in
    OSError without going any further. *)
Theorem second_template_failure_keeps_first
    (env : gmap string string) (stdin : list string) (w : world) (d : string) :
  env !! "MESOS_LOG_SANDBOX_DIRECTORY" = Some d →
  d ≠ "" →
  files w !! (d ++ "/filebeat.template.json")%string = None →
  files w !! (d ++ "/filebeat.template-es2x.json")%string = None →
  (d ++ "/filebeat.template.json")%string ∉ unwritable w →
  (d ++ "/filebeat.template-es2x.json")%string ∈ unwritable w →
  main env stdin w
  = (set_files (<[(d ++ "/filebeat.template.json")%string := template_json]> (files w)) w,
     Raise OSError).
Proof.
  intros Hd Hne Hnone1 Hnone2 Hw1 Hw2.
  pose proof (template_paths_differ (PStr d)) as Hdiff. cbn [py_str] in Hdiff.
  rewrite main_dispatch. unfold environ_get. rewrite Hd.
  rewrite template_provisioner_run. unfold both_effects. cbn [py_str].
  rewrite effect_written by (done || by apply truthy_nonempty).
  rewrite effect_refused; [done| |by apply truthy_nonempty|done].
  cbn [files set_files]. by rewrite lookup_insert_ne.
Qed.

End Wrapper.

(** ** The supervisor *)

Lemma run_finished (st : wait_status) (evs : list event) :
  run (Finished st) evs = Finished st.
Proof. induction evs as [|ev evs IH]; [done|]. exact IH. Qed.

Lemma exit_code_kept (n : Z) : 0 ≤ n < 256 → sys_exit n = Exited n.
Proof. intros H. unfold sys_exit. by rewrite Z.mod_small. Qed.

Lemma exit_code_of_signal (sig : Z) :
  0 < sig < 256 → sys_exit (returncode (Signaled sig)) = Exited (256 - sig).
Proof.
  intros H. unfold sys_exit, returncode. f_equal.
  symmetry. apply (Z.mod_unique_pos (- sig) 256 (-1)); lia.
Qed.

(** C2, as far as it holds. Once the child has ended, the blocked wait
    passes its return code to [sys.exit]. An agent that exits with code N,
    from 0 to 255, makes the script exit with status N, whether it ends
    before or after the script reaches the wait. An agent ended by signal S
    has return code minus S, and the script then exits with status 256 - S:
    it is not ended by the signal itself. *)
Theorem supervisor_exit_status (code sig : Z) :
  0 ≤ code < 256 →
  0 < sig < 256 →
  (∀ st, wait_and_exit (Supervising true (Ended st))
         = Finished (sys_exit (returncode st)))
  ∧ run (Supervising false Running) [Advance; ChildExits code] = Finished (Exited code)
  ∧ run (Supervising false Running) [ChildExits code; Advance] = Finished (Exited code)
  ∧ run (Supervising false Running) [Advance; ChildSignaled sig]
    = Finished (Exited (256 - sig))
  ∧ run (Supervising false Running) [ChildSignaled sig; Advance]
    = Finished (Exited (256 - sig)).
Proof.
  intros Hcode Hsig. split; [done|].
  cbn [run fold_left step wait_and_exit child_ends].
  change (sys_exit (returncode (Exited code))) with (sys_exit code).
  by rewrite exit_code_kept, exit_code_of_signal.
Qed.

(** C6, as far as it holds. SIGTERM while the script is blocked in the
    wait, the child still running: the handler kills the child at once with SIGKILL and leaves the
    script where it was, supervising; the wait then sees the killed child
    and the script exits with [sys.exit] of the child's return code, -9,
    which its parent sees as status 247, whatever happens afterwards, so it
    does not hang. No handler run ever ends the script by itself. *)
Theorem sigterm_kills_child_and_exits (evs : list event) :
  handler (Supervising true Running) = Supervising true (Ended (Signaled SIGKILL))
  ∧ (∀ armed c, ∃ c', handler (Supervising armed c) = Supervising armed c')
  ∧ step (Supervising true Running) Sigterm
    = wait_and_exit (handler (Supervising true Running))
  ∧ step (Supervising true Running) Sigterm
    = Finished (sys_exit (returncode (Signaled SIGKILL)))
  ∧ run (Supervising true Running) (Sigterm :: evs)
    = Finished (sys_exit (returncode (Signaled SIGKILL)))
  ∧ run (Supervising false Running) (Advance :: Sigterm :: evs)
    = Finished (sys_exit (returncode (Signaled SIGKILL)))
  ∧ sys_exit (returncode (Signaled SIGKILL)) = Exited 247.
Proof.
  split_and!; try done.
  - intros armed c. by eexists.
  - cbn [run fold_left]. apply run_finished.
  - cbn [run fold_left]. apply run_finished.
Qed.





(** ** The theorems at work on the scenarios of section 8 *)

Lemma output_resolver_priority_witness :
  levels_typed is_dict val_ship = true
  ∧ output_resolver sample_repr val_ship (of_env (Some "/s")) (of_env (Some "STDOUT"))
    = Ok (Ship (PStr "es:9200"))
  ∧ levels_typed is_dict val_valueless_later = true
  ∧ output_resolver sample_repr val_valueless_later (of_env (Some "/s"))
      (of_env (Some "STDOUT"))
    = Ok (SidecarFile "/s/stdout").
Proof.
  split; [reflexivity|].
  split; [exact (output_resolver_priority sample_repr val_ship (Some "/s")
                   (Some "STDOUT") eq_refl)|].
  split; [reflexivity|].
  exact (output_resolver_priority sample_repr val_valueless_later (Some "/s")
           (Some "STDOUT") eq_refl).
Defined.

Lemma template_provisioner_fills_and_keeps_witness :
  ("/filebeat.template.json", template_json) ∈ index_templates
  ∧ files (fst (template_provisioner sample_repr (PStr "/s") world0))
      !! "/s/filebeat.template.json" = Some template_json.
Proof.
  split; [apply list_elem_of_here|].
  destruct (template_provisioner_fills_and_keeps sample_repr (PStr "/s") world0
              "/filebeat.template.json" template_json (list_elem_of_here _ _))
    as [Hfill _].
  destruct Hfill as [_ Hfile].
  - reflexivity.
  - reflexivity.
  - intros t _. apply not_elem_of_empty.
  - exact Hfile.
Defined.

Lemma sidecar_file_appends_every_line_witness :
  env_sidecar !! "MESOS_LOG_SANDBOX_DIRECTORY" = Some "/s"
  ∧ env_sidecar !! "MESOS_LOG_STREAM" = Some "STDERR"
  ∧ files (fst (main sample_loads sample_repr env_sidecar two_lines world0)) !! "/s/stderr"
    = Some (join two_lines)
  ∧ snd (script sample_loads sample_repr env_sidecar two_lines world0)
    = Finished (Exited 0).
Proof.
  pose proof (sidecar_file_appends_every_line sample_loads sample_repr
                env_sidecar two_lines world0
                (fst (template_provisioner sample_repr (PStr "/s") world0))
                "/s" "STDERR" "/s/stderr"
                eq_refl eq_refl eq_refl eq_refl (not_elem_of_empty _))
    as (_ & Hmain & _ & _ & Hscript).
  split; [reflexivity|]. split; [reflexivity|].
  rewrite Hmain, Hscript. split; reflexivity.
Defined.

Lemma passthrough_echoes_every_line_witness :
  main sample_loads sample_repr env_passthrough two_lines world0
  = (set_stdout two_lines world0, Ok None)
  ∧ script sample_loads sample_repr env_passthrough two_lines world0
    = (set_stdout two_lines world0, Finished (Exited 0)).
Proof.
  exact (passthrough_echoes_every_line sample_loads sample_repr env_passthrough
           two_lines world0 eq_refl eq_refl eq_refl).
Defined.

Lemma config_renderer_overwrites_witness :
  ("/s/filebeat-STDOUT.yml" ∉ unwritable world_stale)
  ∧ files world_stale !! "/s/filebeat-STDOUT.yml" = Some "stale"
  ∧ fst (config_renderer sample_repr (PStr "/s") (PStr "STDOUT") (PStr "nginx") (PStr "")
           (PStr "es:9200") world_stale)
    = set_files (<["/s/filebeat-STDOUT.yml" :=
                     rendered sample_repr (PStr "nginx") (PStr "") (PStr "/s")
                              (PStr "STDOUT") (PStr "es:9200")]> ∅) world0
  ∧ occurs "nginx" (rendered sample_repr (PStr "nginx") (PStr "") (PStr "/s")
                             (PStr "STDOUT") (PStr "es:9200")) = true
  ∧ occurs "es:9200" (rendered sample_repr (PStr "nginx") (PStr "") (PStr "/s")
                               (PStr "STDOUT") (PStr "es:9200")) = true.
Proof.
  pose proof (config_renderer_overwrites sample_repr (PStr "/s") (PStr "STDOUT")
                (PStr "nginx") (PStr "") (PStr "es:9200") world_stale
                (not_elem_of_empty _))
    as (Hrun & _ & Himage & Hhost & _).
  split; [apply not_elem_of_empty|]. split; [reflexivity|].
  split; [|split; [exact Himage|exact Hhost]].
  rewrite Hrun. unfold world_stale. cbn [fst files set_files].
  by rewrite insert_insert_eq.
Defined.

Lemma ship_mode_ignores_missing_context_witness :
  find_output_host (executor_info sample_loads env_ship_bare) = Ok (PStr "es:9200")
  ∧ files (fst (main sample_loads sample_repr env_ship_bare two_lines world0))
      !! "None/filebeat-None.yml"
    = Some (rendered sample_repr (PStr "nginx") (PStr "") PNone PNone (PStr "es:9200"))
  ∧ stdout (fst (main sample_loads sample_repr env_ship_bare two_lines world0)) = [].
Proof.
  pose proof (ship_mode_ignores_missing_context sample_loads sample_repr
                env_ship_bare two_lines world0 (PStr "es:9200") (PStr "nginx") (PStr "")
                eq_refl eq_refl eq_refl eq_refl (not_elem_of_empty _))
    as (_ & Hfile & Hout & _).
  split; [reflexivity|]. split; [exact Hfile|exact Hout].
Defined.

Lemma output_resolver_tolerates_absence_witness :
  levels_typed is_dict (executor_info sample_loads env_no_command) = true
  ∧ output_resolver sample_repr (executor_info sample_loads env_no_command)
      (of_env (Some "/s")) (of_env (Some "STDERR"))
    = Ok (SidecarFile "/s/stderr").
Proof.
  split; [reflexivity|].
  destruct (output_resolver_tolerates_absence sample_loads sample_repr env_no_command
              (Some "/s") (Some "STDERR") (or_intror (or_intror eq_refl)))
    as (_ & _ & target & Htarget & Hfallback).
  rewrite Htarget. f_equal. by destruct (Hfallback eq_refl) as [-> _].
Defined.

Lemma supervisor_exit_status_witness :
  run (Supervising false Running) [Advance; ChildExits 3] = Finished (Exited 3)
  ∧ run (Supervising false Running) [Advance; ChildSignaled SIGTERM]
    = Finished (Exited 241).
Proof.
  destruct (supervisor_exit_status 3 SIGTERM) as (_ & Hexit & _ & Hsignal & _).
  - lia.
  - unfold SIGTERM. lia.
  - split; [exact Hexit|exact Hsignal].
Defined.

(** ** Where the specification says more than the program does *)

(** Against C2: a child ended by SIGKILL has return code -9; the script
    passes it to [sys.exit] and so exits with status 247, which is neither
    the child's status nor its return code. *)
Lemma supervisor_maps_signal_status :
  run (Supervising false Running) [Advance; ChildSignaled SIGKILL]
  = Finished (Exited 247)
  ∧ Exited 247 ≠ Signaled SIGKILL
  ∧ returncode (Exited 247) ≠ returncode (Signaled SIGKILL).
Proof. split; [reflexivity|]. split; [discriminate|]. cbn. unfold SIGKILL. lia. Qed.

(** Against C1: a second entry named FILEBEAT_OUTPUT_HOST without a value,
    or a first entry without a name, makes the comprehension raise KeyError,
    so the resolver answers with the sidecar file although the first entry
    of that name has a value, which section 4.3 would ship to; and a command
    that is a number makes it raise TypeError, where section 4.3 has
    passthrough. *)
Lemma output_resolver_misses_first_match :
  spec_target val_valueless_later (Some "/s") (Some "STDOUT") = Ship (PStr "a")
  ∧ output_resolver sample_repr val_valueless_later (of_env (Some "/s"))
      (of_env (Some "STDOUT"))
    = Ok (SidecarFile "/s/stdout")
  ∧ spec_target val_nameless_first (Some "/s") (Some "STDOUT") = Ship (PStr "h")
  ∧ output_resolver sample_repr val_nameless_first (of_env (Some "/s"))
      (of_env (Some "STDOUT"))
    = Ok (SidecarFile "/s/stdout")
  ∧ spec_target val_bad_level None None = Passthrough
  ∧ output_resolver sample_repr val_bad_level (of_env None) (of_env None)
    = Raise TypeError.
Proof. repeat split; reflexivity. Qed.

(** Against C6: after SIGTERM the child has been ended by SIGKILL, with
    return code -9, and the script has exited with status 247, which is
    neither the way the child ended nor its return code. *)
Lemma sigterm_exit_differs_from_child_status :
  handler (Supervising true Running) = Supervising true (Ended (Signaled SIGKILL))
  ∧ run (Supervising true Running) [Sigterm] = Finished (Exited 247)
  ∧ Finished (Exited 247) ≠ Finished (Signaled SIGKILL)
  ∧ returncode (Exited 247) ≠ returncode (Signaled SIGKILL).
Proof.
  split; [reflexivity|]. split; [reflexivity|]. split; [discriminate|].
  cbn. unfold SIGKILL. lia.
Qed.

(** Against C3: a descriptor that decodes to a number, or to an object
    whose command is a number, decodes without error and then makes the
    lookup of lines 220-223 raise TypeError, which nothing catches: the
    resolver gives no target and [main] ends in the exception. *)
Lemma output_resolver_raises_on_ill_typed :
  load_executor_info sample_loads env_number = Ok (PInt 5)
  ∧ output_resolver sample_repr (PInt 5) PNone PNone = Raise TypeError
  ∧ snd (main sample_loads sample_repr env_number two_lines world0) = Raise TypeError
  ∧ load_executor_info sample_loads env_bad_level = Ok val_bad_level
  ∧ output_resolver sample_repr val_bad_level PNone PNone = Raise TypeError
  ∧ snd (main sample_loads sample_repr env_bad_level two_lines world0) = Raise TypeError.
Proof. repeat split; reflexivity. Qed.

(** Scenario C as a whole: the three files written, the agent started on
    the rendered configuration. *)
Example scenario_ship :
  snd (main sample_loads sample_repr env_ship two_lines world0)
  = Ok (Some (Process ["/usr/bin/filebeat"; "-path.config"; "/s"; "-c";
                       "/s/filebeat-STDOUT.yml"]))
  ∧ snd (script sample_loads sample_repr env_ship two_lines world0)
    = Supervising false Running
  ∧ (c ← files (fst (main sample_loads sample_repr env_ship two_lines world0))
           !! "/s/filebeat-STDOUT.yml";
     Some (occurs "nginx" c && occurs "es:9200" c)) = Some true
  ∧ files (fst (main sample_loads sample_repr env_ship two_lines world0))
      !! "/s/filebeat.template.json" = Some template_json
  ∧ files (fst (main sample_loads sample_repr env_ship two_lines world0))
      !! "/s/filebeat.template-es2x.json" = Some template_json_x2.
Proof. repeat split; vm_compute; reflexivity. Qed.

(** Scenario D: both templates are created in an empty sandbox, and a
    template the user edited is left as it is while the other is created. *)
Example scenario_templates :
  files (fst (template_provisioner sample_repr (PStr "/s") world0))
  = <["/s/filebeat.template-es2x.json" := template_json_x2]>
      (<["/s/filebeat.template.json" := template_json]> ∅)
  ∧ files (fst (template_provisioner sample_repr (PStr "/s") world_edited))
    = <["/s/filebeat.template-es2x.json" := template_json_x2]>
        (<["/s/filebeat.template.json" := "{}"]> ∅).
Proof. split; vm_compute; reflexivity. Qed.

(** The lookup of lines 220-223 on lists of variables of several kinds: an
    empty object or an empty text in place of the list, an entry without a
    name, a second match without a value, another entry without a value. *)
Example lookup_cases :
  find_output_host (with_variables (PDict [])) = Raise IndexError
  ∧ find_output_host (with_variables (PStr "")) = Raise IndexError
  ∧ find_output_host (with_variables (PList [PDict [("value", PInt 1)]; host_entry "h"]))
    = Raise KeyError
  ∧ find_output_host
      (with_variables
         (PList [host_entry "a"; PDict [("name", PStr "FILEBEAT_OUTPUT_HOST")]]))
    = Raise KeyError
  ∧ find_output_host
      (with_variables (PList [host_entry "a"; PDict [("name", PStr "X")]]))
    = Ok (PStr "a")
  ∧ find_output_host (with_variables (PList [host_entry "a"; host_entry "b"]))
    = Ok (PStr "a")
  ∧ find_output_host (with_variables PNone) = Raise TypeError.
Proof. repeat split; reflexivity. Qed.

(** ** The further properties at work *)

Lemma template_write_failure_is_fatal_witness :
  main sample_loads sample_repr env_sidecar two_lines world_template_locked
  = (world_template_locked, Raise OSError).
Proof.
  destruct (template_write_failure_is_fatal sample_loads sample_repr env_sidecar
              two_lines world_template_locked "/s") as [Hmain _].
  - reflexivity.
  - discriminate.
  - reflexivity.
  - by vm_compute.
  - exact Hmain.
Defined.

Lemma non_object_descriptor_fails_after_provisioning_witness :
  is_dict (executor_info sample_loads env_number_sandbox) = false
  ∧ snd (main sample_loads sample_repr env_number_sandbox two_lines world0)
    = Raise TypeError
  ∧ files (fst (main sample_loads sample_repr env_number_sandbox two_lines world0))
      !! "/s/filebeat.template.json" = Some template_json.
Proof.
  destruct (non_object_descriptor_fails_after_provisioning sample_loads sample_repr
              env_number_sandbox two_lines world0
              (fst (template_provisioner sample_repr (PStr "/s") world0))
              eq_refl eq_refl) as (Hmain & _ & _).
  split; [reflexivity|]. rewrite Hmain. split; reflexivity.
Defined.

Lemma one_bad_entry_disables_shipping_witness :
  levels_typed is_dict val_nameless_first = true
  ∧ descriptor_shaped val_nameless_first = false
  ∧ declared_host val_nameless_first = Some (PStr "h")
  ∧ output_resolver sample_repr val_nameless_first (of_env (Some "/s"))
      (of_env (Some "STDERR"))
    = Ok (SidecarFile "/s/stderr").
Proof.
  destruct (one_bad_entry_disables_shipping sample_repr val_nameless_first
              (Some "/s") (Some "STDERR") eq_refl eq_refl) as [_ Hres].
  split; [reflexivity|]. split; [reflexivity|]. split; [reflexivity|]. exact Hres.
Defined.

Lemma ship_mode_reads_no_input_witness :
  find_output_host (executor_info sample_loads env_ship) = Ok (PStr "es:9200")
  ∧ main sample_loads sample_repr env_ship two_lines world0
    = main sample_loads sample_repr env_ship [] world0.
Proof.
  split; [reflexivity|].
  exact (ship_mode_reads_no_input sample_loads sample_repr env_ship two_lines world0
           (PStr "es:9200") eq_refl).
Defined.

Lemma agent_command_line_witness :
  snd (main sample_loads sample_repr env_ship two_lines world0)
  = Ok (Some (Process ["/usr/bin/filebeat"; "-path.config"; "/s"; "-c";
                       "/s/filebeat-STDOUT.yml"])).
Proof.
  destruct (agent_command_line sample_loads sample_repr env_ship two_lines world0
              (fst (template_provisioner sample_repr (PStr "/s") world0)) "/s"
              (PStr "es:9200") (PStr "nginx") (PStr "")
              eq_refl eq_refl eq_refl eq_refl eq_refl) as [Hmain _].
  - apply not_elem_of_empty.
  - by vm_compute.
  - exact Hmain.
Defined.

Lemma ship_without_sandbox_fails_at_spawn_witness :
  env_ship_bare !! "MESOS_LOG_SANDBOX_DIRECTORY" = None
  ∧ snd (main sample_loads sample_repr env_ship_bare two_lines world0) = Raise TypeError
  ∧ is_Some (files (fst (main sample_loads sample_repr env_ship_bare two_lines world0))
               !! "None/filebeat-None.yml").
Proof.
  destruct (ship_without_sandbox_fails_at_spawn sample_loads sample_repr env_ship_bare
              two_lines world0 (PStr "es:9200") (PStr "nginx") (PStr "")
              eq_refl eq_refl eq_refl eq_refl (not_elem_of_empty _)) as [Hmain _].
  split; [reflexivity|]. rewrite Hmain. split; [reflexivity|].
  cbn [fst files set_files]. rewrite lookup_insert_eq. by eexists.
Defined.

Lemma missing_agent_is_fatal_witness :
  ("/usr/bin/filebeat" ∉ executables world_no_agent)
  ∧ snd (main sample_loads sample_repr env_ship two_lines world_no_agent) = Raise OSError.
Proof.
  destruct (missing_agent_is_fatal sample_loads sample_repr env_ship two_lines
              world_no_agent
              (fst (template_provisioner sample_repr (PStr "/s") world_no_agent)) "/s"
              (PStr "es:9200") (PStr "nginx") (PStr "")
              eq_refl eq_refl eq_refl eq_refl eq_refl) as [Hmain _].
  - apply not_elem_of_empty.
  - apply not_elem_of_empty.
  - split; [apply not_elem_of_empty|]. by rewrite Hmain.
Defined.

Lemma config_write_failure_is_fatal_witness :
  ("/s/filebeat-STDOUT.yml" ∈ unwritable world_config_locked)
  ∧ snd (main sample_loads sample_repr env_ship two_lines world_config_locked)
    = Raise OSError
  ∧ files (fst (main sample_loads sample_repr env_ship two_lines world_config_locked))
      !! "/s/filebeat-STDOUT.yml" = None.
Proof.
  destruct (config_write_failure_is_fatal sample_loads sample_repr env_ship two_lines
              world_config_locked
              (fst (template_provisioner sample_repr (PStr "/s") world_config_locked))
              (PStr "es:9200") (PStr "nginx") (PStr "")
              eq_refl eq_refl eq_refl eq_refl) as [Hmain _].
  - by vm_compute.
  - split; [by vm_compute|]. rewrite Hmain. split; reflexivity.
Defined.

Lemma image_and_framework_default_to_empty_witness :
  docker_image val_ship = Ok (PStr "nginx") ∧ framework_id val_ship = Ok (PStr "").
Proof.
  exact (image_and_framework_default_to_empty val_ship eq_refl eq_refl).
Defined.

Lemma sidecar_open_failure_witness :
  ("/s/stderr" ∈ unwritable world_sidecar_locked)
  ∧ snd (main sample_loads sample_repr env_sidecar [] world_sidecar_locked) = Ok None
  ∧ snd (main sample_loads sample_repr env_sidecar two_lines world_sidecar_locked)
    = Raise OSError.
Proof.
  destruct (sidecar_open_failure sample_loads sample_repr env_sidecar
              world_sidecar_locked
              (fst (template_provisioner sample_repr (PStr "/s") world_sidecar_locked))
              "/s" "STDERR" "/s/stderr" eq_refl eq_refl eq_refl eq_refl)
    as [Hempty Hlines].
  - by vm_compute.
  - split; [by vm_compute|]. rewrite Hempty.
    split; [reflexivity|]. unfold two_lines. by destruct (Hlines "first
" ["second
"]) as [-> _].
Defined.

Lemma passthrough_after_provisioning_witness :
  stdout (fst (main sample_loads sample_repr env_sandbox_only two_lines world0))
  = two_lines
  ∧ files (fst (main sample_loads sample_repr env_sandbox_only two_lines world0))
      !! "/s/filebeat.template.json" = Some template_json.
Proof.
  destruct (passthrough_after_provisioning sample_loads sample_repr env_sandbox_only
              two_lines world0
              (fst (template_provisioner sample_repr (PStr "/s") world0)) KeyError
              eq_refl eq_refl eq_refl eq_refl) as (Hmain & _ & _).
  rewrite Hmain. split; reflexivity.
Defined.

Lemma sidecar_ignores_label_case_witness :
  output_resolver sample_repr (PDict []) (PStr "/s") (PStr "STDERR")
  = output_resolver sample_repr (PDict []) (PStr "/s") (PStr "stderr").
Proof.
  exact (sidecar_ignores_label_case sample_repr (PDict []) (PStr "/s")
           "STDERR" "stderr" eq_refl).
Defined.

Lemma second_template_failure_keeps_first_witness :
  snd (main sample_loads sample_repr env_sidecar two_lines world_second_locked)
  = Raise OSError
  ∧ files (fst (main sample_loads sample_repr env_sidecar two_lines world_second_locked))
      !! "/s/filebeat.template.json" = Some template_json.
Proof.
  rewrite (second_template_failure_keeps_first sample_loads sample_repr env_sidecar
             two_lines world_second_locked "/s" eq_refl).
  - split; reflexivity.
  - discriminate.
  - reflexivity.
  - reflexivity.
  - by vm_compute.
  - by vm_compute.
Defined.

Lemma rendered_carries_context_witness :
  ∃ text,
    files (fst (config_renderer sample_repr (PStr "/s") (PStr "STDOUT") (PStr "nginx")
                  (PStr "f-1") (PStr "es:9200") world_stale))
      !! "/s/filebeat-STDOUT.yml" = Some text
    ∧ occurs "f-1" text = true ∧ occurs "/s" text = true ∧ occurs "STDOUT" text = true.
Proof.
  destruct (rendered_carries_context sample_repr (PStr "/s") (PStr "STDOUT")
              (PStr "nginx") (PStr "f-1") (PStr "es:9200") world_stale
              (not_elem_of_empty _))
    as (text & _ & Hfile & Hfw & Hsandbox & Hstream).
  exists text. split; [exact Hfile|]. split; [exact Hfw|].
  split; [exact Hsandbox|exact Hstream].
Defined.
